(** * weather_agent_cli.py: a shallow embedding and its verified properties

    The script is a console loop that asks a hosted language model for a
    National Weather Service "points" URL, fetches it with curl, reads the
    forecast URL out of the JSON answer, fetches that, and asks the model to
    summarise the forecast.

    Python values are dynamically typed, so the embedding carries a small
    universe of values ([pyval]) and the exceptions the interpreter raises on
    them.  Everything the script reaches outside itself (boto3, subprocess,
    json.loads, str() of a non-string) is a field of a [Runtime] record; the
    script's functions are state-passing computations over a [world] holding
    the pending console input, the state of the outside services and the
    sequence of observable events produced so far.

    Strings are [string]; a character is a code point below 256, which is the
    range on which [isspace] and [lower] below agree with Python's [str]. *)

From Stdlib Require Import Bool Arith ZArith List Ascii String Lia.
From Stdlib Require QArith.QArith_base.
From Stdlib Require DecimalString.
Import ListNotations.

Local Open Scope string_scope.
Local Open Scope list_scope.

Set Implicit Arguments.
Set Warnings "-register-all".

(* ================================================================== *)
(** ** Text *)

Module Text.

Definition nl : string := String "010"%char EmptyString.
Definition dquote : string := String "034"%char EmptyString.

(** [str.isspace] for one character.  Below 256 the white-space code points
    are 9..13, 28..32, 133 and 160. *)
Definition isspace (c : ascii) : bool :=
  let n := nat_of_ascii c in
  (((9 <=? n) && (n <=? 13)) || ((28 <=? n) && (n <=? 32))
   || (n =? 133) || (n =? 160))%nat.

(** [str.lower] for one character: A..Z, and the upper-case letters
    192..222 of the Latin-1 block (215, the multiplication sign, is not a
    letter), move up by 32. *)
Definition lower_char (c : ascii) : ascii :=
  let n := nat_of_ascii c in
  if (((65 <=? n) && (n <=? 90))
      || ((192 <=? n) && (n <=? 222) && negb (n =? 215)))%nat
  then ascii_of_nat (n + 32) else c.

Fixpoint lower (s : string) : string :=
  match s with
  | EmptyString => EmptyString
  | String c r => String (lower_char c) (lower r)
  end.

Fixpoint lstrip (s : string) : string :=
  match s with
  | EmptyString => EmptyString
  | String c r => if isspace c then lstrip r else s
  end.

Fixpoint rstrip (s : string) : string :=
  match s with
  | EmptyString => EmptyString
  | String c r =>
      match rstrip r with
      | EmptyString => if isspace c then EmptyString else String c EmptyString
      | r' => String c r'
      end
  end.

(** [s.strip()] *)
Definition strip (s : string) : string := rstrip (lstrip s).

(** [s.startswith(p)] *)
Definition startswith (s p : string) : bool := prefix p s.

(** [x in xs] for a list of strings *)
Definition str_in (x : string) (xs : list string) : bool :=
  existsb (String.eqb x) xs.

(** [c * n] for a one-character string [c] *)
Fixpoint times (c : ascii) (n : nat) : string :=
  match n with
  | O => EmptyString
  | S k => String c (times c k)
  end.

(** [s[:n]] *)
Definition take (n : nat) (s : string) : string := substring 0 n s.

(** decimal numeral of a natural number, as [str(n)] prints it *)
Definition decimal (n : nat) : string :=
  DecimalString.NilZero.string_of_uint (Nat.to_uint n).

(** [needle in hay] for strings *)
Definition occurs (needle hay : string) : bool :=
  match index 0 needle hay with Some _ => true | None => false end.

Definition all_space (s : string) : bool :=
  forallb isspace (list_ascii_of_string s).

End Text.
Import Text.

(* ================================================================== *)
(** ** Python values and exceptions *)

(** The values that flow through the script: what [json.loads] builds, what
    the service client returns, and the strings and lists the script builds
    itself.  A dict keeps its items in insertion order; its keys are
    strings, as they are in a decoded JSON object and in a service reply. *)
Inductive pyval : Type :=
| VNone
| VBool (b : bool)
| VInt (z : Z)
| VFloat (lexeme : string)
| VStr (s : string)
| VList (items : list pyval)
| VDict (items : list (string * pyval)).

(** Exception classes.  Every class here derives from [Exception]. *)
Inductive exn_class : Type :=
| JSONDecodeError
| KeyError
| IndexError
| TypeError
| AttributeError
| TimeoutExpired
| EOFError
| OtherError (name : string).

(** A raised exception: its class and [str(e)]. *)
Record exn : Type := MkExn { exn_cls : exn_class; exn_str : string }.

Definition exn_class_eqb (a b : exn_class) : bool :=
  match a, b with
  | JSONDecodeError, JSONDecodeError => true
  | KeyError, KeyError => true
  | IndexError, IndexError => true
  | TypeError, TypeError => true
  | AttributeError, AttributeError => true
  | TimeoutExpired, TimeoutExpired => true
  | EOFError, EOFError => true
  | OtherError x, OtherError y => String.eqb x y
  | _, _ => false
  end.

(** [isinstance(e, classes)] for a tuple of the classes above *)
Definition isinstance (e : exn) (classes : list exn_class) : bool :=
  existsb (exn_class_eqb (exn_cls e)) classes.
Arguments isinstance : simpl never.

(** What [except Exception] does not catch: an exception whose class derives
    from [BaseException] but not from [Exception].  The interpreter raises
    [KeyboardInterrupt] when the user interrupts a call and [SystemExit] when
    something calls [sys.exit]. *)
Inductive base_exn : Type :=
| KeyboardInterrupt
| SystemExit
| OtherBaseException (name : string).

(** What a call does: return a value, raise an exception derived from
    [Exception], or raise one that is not. *)
Inductive outcome (A : Type) : Type :=
| Returns (a : A)
| Raises (e : exn)
| RaisesBase (b : base_exn).
Arguments Returns {A} a.
Arguments Raises {A} e.
Arguments RaisesBase {A} b.

Module Py.

Definition type_name (v : pyval) : string :=
  match v with
  | VNone => "NoneType"
  | VBool _ => "bool"
  | VInt _ => "int"
  | VFloat _ => "float"
  | VStr _ => "str"
  | VList _ => "list"
  | VDict _ => "dict"
  end.

Definition not_subscriptable (v : pyval) : exn :=
  MkExn TypeError ("'" ++ type_name v ++ "' object is not subscriptable").

Fixpoint lookup (k : string) (items : list (string * pyval)) : option pyval :=
  match items with
  | [] => None
  | (k', v) :: rest => if String.eqb k k' then Some v else lookup k rest
  end.

(** [v[key]] with a string literal as key.  [str(KeyError(key))] is the
    repr of the key, which for the keys of this script is the key between
    single quotes. *)
Definition getitem_str (v : pyval) (key : string) : outcome pyval :=
  match v with
  | VDict items =>
      match lookup key items with
      | Some x => Returns x
      | None => Raises (MkExn KeyError ("'" ++ key ++ "'"))
      end
  | VList _ =>
      Raises (MkExn TypeError
                "list indices must be integers or slices, not str")
  | VStr _ =>
      Raises (MkExn TypeError "string indices must be integers, not 'str'")
  | _ => Raises (not_subscriptable v)
  end.

(** [v[0]] *)
Definition getitem_0 (v : pyval) : outcome pyval :=
  match v with
  | VList (x :: _) => Returns x
  | VList [] => Raises (MkExn IndexError "list index out of range")
  | VStr (String c _) => Returns (VStr (String c EmptyString))
  | VStr EmptyString => Raises (MkExn IndexError "string index out of range")
  | VDict _ => Raises (MkExn KeyError "0")
  | _ => Raises (not_subscriptable v)
  end.

(** [v[:n]] *)
Definition slice_to (n : nat) (v : pyval) : outcome pyval :=
  match v with
  | VStr s => Returns (VStr (take n s))
  | VList l => Returns (VList (firstn n l))
  | VDict _ =>
      Raises (MkExn KeyError ("slice(None, " ++ decimal n ++ ", None)"))
  | _ => Raises (not_subscriptable v)
  end.

(** [len(v)] *)
Definition len (v : pyval) : outcome nat :=
  match v with
  | VStr s => Returns (String.length s)
  | VList l => Returns (List.length l)
  | VDict d => Returns (List.length d)
  | _ =>
      Raises (MkExn TypeError
                ("object of type '" ++ type_name v ++ "' has no len()"))
  end.

(** [v.strip()] *)
Definition strip (v : pyval) : outcome string :=
  match v with
  | VStr s => Returns (Text.strip s)
  | _ =>
      Raises (MkExn AttributeError
                ("'" ++ type_name v ++ "' object has no attribute 'strip'"))
  end.

End Py.

(* ================================================================== *)
(** ** The world the script runs in *)

(** The request [bedrock.converse] is called with. *)
Record converse_request : Type := {
  modelId : string;
  user_text : string;
  maxTokens : Z;
  temperature : QArith_base.Q
}.

(** [subprocess.CompletedProcess], with output captured as text *)
Record completed : Type := {
  returncode : Z;
  stdout : string;
  stderr : string
}.

(** What an observer of the process sees, in order. *)
Inductive event : Type :=
| Print (line : string)
| Input (prompt : string)
| Boto3Client (service_name region_name : string)
| Converse (req : converse_request)
| SubprocessRun (argv : list pyval) (timeout : Z).

(** An event is a network call when it is the model call or a curl run. *)
Definition is_network_call (ev : event) : bool :=
  match ev with
  | Converse _ | SubprocessRun _ _ => true
  | _ => false
  end.

(** The libraries and services behind the script.  [E] is the state of the
    outside world; each call may change it and may raise, an error or (as
    when the user interrupts it) an exception that does not derive from
    [Exception].  [json_loads] is pure; [py_repr] is what [str()] gives for a
    value that is not a string. *)
Record Runtime (E : Type) : Type := {
  boto3_client : string -> string -> E -> outcome unit * E;
  converse : converse_request -> E -> outcome pyval * E;
  subprocess_run : list pyval -> Z -> E -> outcome completed * E;
  json_loads : string -> outcome pyval;
  py_repr : pyval -> string
}.

(** [stdin] is the console as the script reads it: the lines that its calls
    of [input()] return, in order, before [input()] finds the end of input.
    Whatever else takes characters from the console (a child process
    inherits it) only decides which lines these are; it is not part of this
    list.  [env] is the state of everything outside the script, [out] what
    has been observed so far. *)
Record world (E : Type) : Type := {
  stdin : list string;
  env : E;
  out : list event
}.

(** How a statement ends: normally, by [continue] or [break] of the enclosing
    loop, by a raised exception derived from [Exception], or by one that is
    not. *)
Inductive res (A : Type) : Type :=
| Val (a : A)
| Continue
| Break
| Raise (e : exn)
| RaiseBase (b : base_exn).
Arguments Val {A} a.
Arguments Continue {A}.
Arguments Break {A}.
Arguments Raise {A} e.
Arguments RaiseBase {A} b.

Definition M (E A : Type) : Type := world E -> res A * world E.

Section Monad.
Context {E : Type}.

Definition ret {A} (a : A) : M E A := fun w => (Val a, w).

Definition bind {A B} (m : M E A) (k : A -> M E B) : M E B :=
  fun w =>
    match m w with
    | (Val a, w') => k a w'
    | (Continue, w') => (Continue, w')
    | (Break, w') => (Break, w')
    | (Raise e, w') => (Raise e, w')
    | (RaiseBase b, w') => (RaiseBase b, w')
    end.

Definition continue_ {A} : M E A := fun w => (Continue, w).
Definition break_ {A} : M E A := fun w => (Break, w).
Definition raise {A} (e : exn) : M E A := fun w => (Raise e, w).
Definition raise_base {A} (b : base_exn) : M E A := fun w => (RaiseBase b, w).

(** a pure operation of the interpreter that may raise *)
Definition lift {A} (o : outcome A) : M E A :=
  match o with
  | Returns a => ret a
  | Raises e => raise e
  | RaisesBase b => raise_base b
  end.

(** append to the event sequence *)
Definition emit (ev : event) (w : world E) : world E :=
  {| stdin := stdin w; env := env w; out := out w ++ [ev] |}.

(** [print(line)] *)
Definition print (line : string) : M E unit :=
  fun w => (Val tt, emit (Print line) w).

(** The world after [print(line)]. *)
Definition say (line : string) (w : world E) : world E :=
  emit (Print line) w.

(** The world once [input(prompt)] has taken a line and left [rest]. *)
Definition prompted (prompt : string) (rest : list string) (w : world E)
  : world E :=
  {| stdin := rest; env := env w; out := out w ++ [Input prompt] |}.

(** [input(prompt)]: shows the prompt and takes the next line; at end of
    input it raises [EOFError]. *)
Definition input (prompt : string) : M E string :=
  fun w =>
    match stdin w with
    | [] =>
        (Raise (MkExn EOFError "EOF when reading a line"),
         emit (Input prompt) w)
    | l :: rest => (Val l, prompted prompt rest w)
    end.

(** The world once the outside call recorded as [ev] has left the
    services in state [e']. *)
Definition called (ev : event) (e' : E) (w : world E) : world E :=
  {| stdin := stdin w; env := e'; out := out w ++ [ev] |}.

(** a call into the outside world, recorded as [ev]: it may change the
    state of the services and may raise; the lines that [input()] is still
    to return are those of [stdin], whatever the call does *)
Definition call {A} (ev : event) (f : E -> outcome A * E) : M E A :=
  fun w =>
    let (o, e') := f (env w) in
    match o with
    | Returns a => (Val a, called ev e' w)
    | Raises e => (Raise e, called ev e' w)
    | RaisesBase b => (RaiseBase b, called ev e' w)
    end.

(** [try: body  except ...: handler].  Every except clause of the script
    names [Exception] or classes derived from it, so a handler is asked about
    such exceptions only: [handler e] is [None] when no clause matches [e],
    which then propagates, and an exception that does not derive from
    [Exception] always propagates. *)
Definition try_except {A} (body : M E A) (handler : exn -> option (M E A))
  : M E A :=
  fun w =>
    match body w with
    | (Raise e, w') =>
        match handler e with
        | Some h => h w'
        | None => (Raise e, w')
        end
    | r => r
    end.

(** [if c: body] where the body ends the iteration *)
Definition when_ (c : bool) (body : M E unit) : M E unit :=
  if c then body else ret tt.

End Monad.

Declare Scope py_scope.
Delimit Scope py_scope with py.
Notation "x <- m ;; k" := (bind m (fun x => k))
  (at level 61, m at next level, right associativity) : py_scope.
Notation "' p <- m ;; k" := (bind m (fun x => match x with p => k end))
  (at level 61, p pattern, m at next level, right associativity) : py_scope.
Notation "m ;; k" := (bind m (fun _ => k))
  (at level 61, right associativity) : py_scope.
Local Open Scope py_scope.

(* ================================================================== *)
(** ** The script *)

Definition and_then {A B} (o : outcome A) (k : A -> outcome B) : outcome B :=
  match o with
  | Returns a => k a
  | Raises e => Raises e
  | RaisesBase b => RaisesBase b
  end.

(** every line followed by a line feed, as in a triple-quoted literal *)
Fixpoint unlines (ls : list string) : string :=
  match ls with
  | [] => EmptyString
  | l :: rest => (l ++ nl ++ unlines rest)%string
  end.

Definition is_empty (s : string) : bool :=
  match s with
  | EmptyString => true
  | String _ _ => false
  end.

Definition points_prefix : string := "https://api.weather.gov/points/".

Section Script.
Context {E : Type} (rt : Runtime E).

(** [str(v)], as an f-string formats [v] *)
Definition str_of (v : pyval) : string :=
  match v with
  | VStr s => s
  | _ => py_repr rt v
  end.

(** [json.loads(v)] *)
Definition loads (v : pyval) : outcome pyval :=
  match v with
  | VStr s => json_loads rt s
  | _ =>
      Raises (MkExn TypeError
                ("the JSON object must be str, bytes or bytearray, not "
                 ++ Py.type_name v))
  end.

Definition claude_request (prompt : string) : converse_request :=
  {| modelId := "us.anthropic.claude-sonnet-4-5-20250929-v1:0";
     user_text := prompt;
     maxTokens := 2000;
     temperature := QArith_base.Qmake 7 10 |}.

(** [response['output']['message']['content'][0]['text']] *)
Definition generated_text (response : pyval) : outcome pyval :=
  and_then (Py.getitem_str response "output") (fun o =>
  and_then (Py.getitem_str o "message") (fun m =>
  and_then (Py.getitem_str m "content") (fun c =>
  and_then (Py.getitem_0 c) (fun first =>
  Py.getitem_str first "text")))).

(** lines 7-36 *)
Definition call_claude_sonnet (prompt : string) : M E (bool * pyval) :=
  call (Boto3Client "bedrock-runtime" "us-west-2")
       (boto3_client rt "bedrock-runtime" "us-west-2") ;;
  try_except
    (response <- call (Converse (claude_request prompt))
                      (converse rt (claude_request prompt)) ;;
     text <- lift (generated_text response) ;;
     ret (true, text))
    (fun e =>
       Some (ret (false, VStr ("Error calling Claude: " ++ exn_str e)))).

Definition curl_argv (url : pyval) : list pyval :=
  [VStr "curl"; VStr "-s"; url].

(** lines 38-62 *)
Definition execute_curl_command (url : pyval) : M E (bool * pyval) :=
  try_except
    (result <- call (SubprocessRun (curl_argv url) 30)
                    (subprocess_run rt (curl_argv url) 30) ;;
     if (returncode result =? 0)%Z
     then ret (true, VStr (stdout result))
     else ret (false, VStr ("Curl command failed: " ++ stderr result)))
    (fun e =>
       if isinstance e [TimeoutExpired]
       then Some (ret (false, VStr "Request timed out after 30 seconds"))
       else Some (ret (false, VStr ("Error executing curl: " ++ exn_str e)))).

Definition planner_prompt (location : string) : string :=
  unlines
    [ EmptyString;
      "You are an expert at working with the National Weather Service (NWS) API.";
      EmptyString;
      "Your task: Generate the NWS API URL to get weather forecast data for "
        ++ dquote ++ location ++ dquote ++ ".";
      EmptyString;
      "Instructions:";
      "1. First, determine the approximate latitude and longitude coordinates for this location";
      "2. Generate the NWS Points API URL: https://api.weather.gov/points/{lat},{lon}";
      EmptyString;
      "For the coordinates, use your knowledge to estimate:";
      "- Major cities: Use well-known coordinates";
      "- ZIP codes: Estimate based on the area";
      "- States: Use approximate center coordinates";
      "- In case a location description is provided instead of a location name, please use the most likely city and state name as the location for the coordinates";
      EmptyString;
      "Example for Seattle:";
      "https://api.weather.gov/points/47.6062,-122.3321";
      EmptyString;
      "Example for largest city in USA:";
      "Based on your knowledge, you will establish location is New York City";
      "https://api.weather.gov/points/40.7128,-74.0060";
      EmptyString;
      "Now generate the API call (Points API) for the established location. ";
      "Return ONLY the complete Points API URL, nothing else.";
      "Format: https://api.weather.gov/points/LAT,LON" ]%string.

(** lines 64-111 *)
Definition generate_weather_api_calls (location : string)
  : M E (bool * pyval) :=
  let prompt := planner_prompt location in
  print ("AI is analyzing '" ++ location
         ++ "' and generating weather API calls...") ;;
  '(success, response) <- call_claude_sonnet prompt ;;
  if success : bool then
    api_url <- lift (Py.strip response) ;;
    if startswith api_url points_prefix
    then ret (true, VList [VStr api_url])
    else ret (false, VStr ("AI generated invalid URL: " ++ api_url))
  else ret (false, response).

(** lines 113-128 *)
Definition get_forecast_url_from_points_response (points_json : pyval)
  : M E (bool * pyval) :=
  try_except
    (data <- lift (loads points_json) ;;
     properties <- lift (Py.getitem_str data "properties") ;;
     forecast_url <- lift (Py.getitem_str properties "forecast") ;;
     ret (true, forecast_url))
    (fun e =>
       if isinstance e [JSONDecodeError; KeyError]
       then Some (ret (false,
                       VStr ("Error parsing Points API response: "
                             ++ exn_str e)))
       else None).

Definition summary_prompt (raw_json : pyval) (location : string) : string :=
  unlines
    [ EmptyString;
      "You are a weather information specialist. I have raw National Weather Service forecast data for "
        ++ dquote ++ location ++ dquote
        ++ " that needs to be converted into a clear, helpful summary for a general audience.";
      EmptyString;
      "Raw NWS API Response:";
      str_of raw_json;
      EmptyString;
      "Please create a weather summary that includes:";
      "1. A brief introduction with the location";
      "2. Current conditions and today's forecast";
      "3. The next 2-3 days outlook with key details (temperature, precipitation, wind)";
      "4. Any notable weather patterns or alerts";
      "5. Format the response to be easy to read and understand";
      EmptyString;
      "Make it informative and practical for someone planning their activities. Focus on being helpful and clear." ]%string.

(** lines 130-160 *)
Definition process_weather_response (raw_json : pyval) (location : string)
  : M E (bool * pyval) :=
  let prompt := summary_prompt raw_json location in
  print "AI is processing weather data and creating summary..." ;;
  '(success, response) <- call_claude_sonnet prompt ;;
  ret (success, response).

(** lines 181-235: the rest of the loop body once [location] has passed
    the two checks *)
Definition weather_analysis (location : string) : M E unit :=
  print (nl ++ "Starting weather analysis for '" ++ location ++ "'...") ;;
  print (times "-" 40) ;;

  print "Step 1: AI Planning Phase" ;;
  '(success, api_calls) <- generate_weather_api_calls location ;;
  when_ (negb success)
    (print ("[ERROR] Failed to generate API calls: " ++ str_of api_calls) ;;
     continue_) ;;

  points_url <- lift (Py.getitem_0 api_calls) ;;
  print ("[SUCCESS] Generated Points API URL: " ++ str_of points_url) ;;

  print (nl ++ "Step 2: Points API Execution") ;;
  print "Fetching location data from National Weather Service..." ;;
  '(success, points_response) <- execute_curl_command points_url ;;
  when_ (negb success)
    (print ("[ERROR] Failed to fetch points data: "
            ++ str_of points_response) ;;
     continue_) ;;

  print "[SUCCESS] Received points data" ;;

  print (nl ++ "Step 3: Extracting Forecast URL") ;;
  '(success, forecast_url) <-
     get_forecast_url_from_points_response points_response ;;
  when_ (negb success)
    (print ("[ERROR] Failed to extract forecast URL: "
            ++ str_of forecast_url) ;;
     continue_) ;;

  shown <- lift (Py.slice_to 60 forecast_url) ;;
  print ("[SUCCESS] Forecast URL: " ++ str_of shown ++ "...") ;;

  print (nl ++ "Step 4: Forecast API Execution") ;;
  print "Fetching weather forecast data..." ;;
  '(success, forecast_response) <- execute_curl_command forecast_url ;;
  when_ (negb success)
    (print ("[ERROR] Failed to fetch forecast data: "
            ++ str_of forecast_response) ;;
     continue_) ;;

  n <- lift (Py.len forecast_response) ;;
  print ("[SUCCESS] Received " ++ decimal n
         ++ " characters of forecast data") ;;

  print (nl ++ "Step 5: AI Analysis Phase") ;;
  '(success, summary) <- process_weather_response forecast_response location ;;
  when_ (negb success)
    (print ("[ERROR] Failed to process data: " ++ str_of summary) ;;
     continue_) ;;

  print (nl ++ "Step 6: Weather Forecast") ;;
  print (times "=" 60) ;;
  print (str_of summary) ;;
  print (times "=" 60) ;;

  print (nl ++ "[SUCCESS] Weather analysis complete for '" ++ location ++ "'!").

Definition input_prompt : string :=
  nl ++ "Enter a location name or description (or 'quit' to exit): ".

Definition farewell : string := "Thanks for using the Weather Agent!".

Definition empty_input_error : string :=
  "[ERROR] Please enter a location name or description.".

(** lines 171-235: one pass through the body of [while True] *)
Definition iteration : M E unit :=
  line <- input input_prompt ;;
  let location := strip line in
  when_ (str_in (lower location) ["quit"; "exit"; "q"])
    (print farewell ;; break_) ;;
  when_ (is_empty location)
    (print empty_input_error ;; continue_) ;;
  weather_analysis location.

(** [while True: body], run for at most [fuel] passes; [None] when the
    passes are used up before the loop is left. *)
Fixpoint while_true (fuel : nat) (body : M E unit) (w : world E)
  : option (res unit * world E) :=
  match fuel with
  | O => None
  | S n =>
      match body w with
      | (Val _, w') => while_true n body w'
      | (Continue, w') => while_true n body w'
      | (Break, w') => Some (Val tt, w')
      | (Raise e, w') => Some (Raise e, w')
      | (RaiseBase b, w') => Some (RaiseBase b, w')
      end
  end.

Definition banner (w : world E) : world E :=
  say (times "=" 60)
    (say "This agent uses Claude 4.5 Sonnet to help you get weather forecasts."
       (say "Welcome to the Weather AI Agent!" w)).

(** lines 162-235 *)
Definition run_weather_agent (fuel : nat) (w : world E)
  : option (res unit * world E) :=
  while_true fuel iteration (banner w).

End Script.

(* ================================================================== *)
(** ** Specification-side definitions *)

(** The URL shape the specification names,
    [https://api.weather.gov/points/<lat>,<lon>]: the fixed prefix, a signed
    decimal number, a comma, a signed decimal number, and nothing else. *)
Module Shape.

Definition is_digit (c : ascii) : bool :=
  ((48 <=? nat_of_ascii c) && (nat_of_ascii c <=? 57))%nat.

Fixpoint digits (s : string) : bool :=
  match s with
  | EmptyString => true
  | String c r => is_digit c && digits r
  end.

(** the text before and after the first [sep], if [sep] occurs *)
Fixpoint split_at (sep : ascii) (s : string) : option (string * string) :=
  match s with
  | EmptyString => None
  | String c r =>
      if Ascii.eqb c sep then Some (EmptyString, r)
      else match split_at sep r with
           | Some (a, b) => Some (String c a, b)
           | None => None
           end
  end.

Definition unsigned_decimal (s : string) : bool :=
  match split_at "." s with
  | Some (whole, frac) =>
      negb (is_empty whole) && digits whole
      && negb (is_empty frac) && digits frac
  | None => negb (is_empty s) && digits s
  end.

Definition decimal_number (s : string) : bool :=
  match s with
  | String "-" r => unsigned_decimal r
  | _ => unsigned_decimal s
  end.

Fixpoint drop_prefix (p s : string) : option string :=
  match p, s with
  | EmptyString, _ => Some s
  | String a p', String b s' =>
      if Ascii.eqb a b then drop_prefix p' s' else None
  | String _ _, EmptyString => None
  end.

Definition points_url (url : string) : bool :=
  match drop_prefix points_prefix url with
  | Some coords =>
      match split_at "," coords with
      | Some (lat, lon) => decimal_number lat && decimal_number lon
      | None => false
      end
  | None => false
  end.

End Shape.

Unset Implicit Arguments.

(** The points in one pass of the loop at which each pipeline step starts,
    and what it means for the pass to have come that far. *)
Section Stages.
Context {E : Type} (rt : Runtime E).

(** the world in which the planner calls the model *)
Definition asking (location : string) (w : world E) : world E :=
  say ("AI is analyzing '" ++ location
       ++ "' and generating weather API calls...") w.

(** the world in which the planner is called *)
Definition at_plan (location : string) (w : world E) : world E :=
  say "Step 1: AI Planning Phase"
    (say (times "-" 40)
       (say (nl ++ "Starting weather analysis for '" ++ location ++ "'...")
          w)).

(** the world in which the points URL is fetched *)
Definition at_points_fetch (points_url : pyval) (w : world E) : world E :=
  say "Fetching location data from National Weather Service..."
    (say (nl ++ "Step 2: Points API Execution")
       (say ("[SUCCESS] Generated Points API URL: " ++ str_of rt points_url)
          w)).

(** the world in which the forecast URL is extracted *)
Definition at_extract (w : world E) : world E :=
  say (nl ++ "Step 3: Extracting Forecast URL")
    (say "[SUCCESS] Received points data" w).

(** the world in which the forecast is fetched *)
Definition at_forecast_fetch (shown : pyval) (w : world E) : world E :=
  say "Fetching weather forecast data..."
    (say (nl ++ "Step 4: Forecast API Execution")
       (say ("[SUCCESS] Forecast URL: " ++ str_of rt shown ++ "...") w)).

(** the world in which the summary is requested *)
Definition at_summary (n : nat) (w : world E) : world E :=
  say (nl ++ "Step 5: AI Analysis Phase")
    (say ("[SUCCESS] Received " ++ decimal n
          ++ " characters of forecast data") w).

(** Step 1 returned success with [points_url] as first element. *)
Inductive planned (location : string) (w : world E)
  : pyval -> world E -> Prop :=
| Planned api_calls points_url w1 :
    generate_weather_api_calls rt location (at_plan location w)
    = (Val (true, api_calls), w1) ->
    Py.getitem_0 api_calls = Returns points_url ->
    planned location w points_url w1.

(** Steps 1 and 2 returned success. *)
Inductive points_fetched (location : string) (w : world E)
  : pyval -> world E -> Prop :=
| PointsFetched points_url w1 points_response w2 :
    planned location w points_url w1 ->
    execute_curl_command rt points_url (at_points_fetch points_url w1)
    = (Val (true, points_response), w2) ->
    points_fetched location w points_response w2.

(** Steps 1 to 3 returned success and the forecast URL could be shown. *)
Inductive extracted (location : string) (w : world E)
  : pyval -> pyval -> world E -> Prop :=
| Extracted points_response w2 forecast_url shown w3 :
    points_fetched location w points_response w2 ->
    get_forecast_url_from_points_response rt points_response (at_extract w2)
    = (Val (true, forecast_url), w3) ->
    Py.slice_to 60 forecast_url = Returns shown ->
    extracted location w forecast_url shown w3.

(** Steps 1 to 4 returned success and the answer has a length. *)
Inductive forecast_fetched (location : string) (w : world E)
  : pyval -> nat -> world E -> Prop :=
| ForecastFetched forecast_url shown w3 forecast_response n w4 :
    extracted location w forecast_url shown w3 ->
    execute_curl_command rt forecast_url (at_forecast_fetch shown w3)
    = (Val (true, forecast_response), w4) ->
    Py.len forecast_response = Returns n ->
    forecast_fetched location w forecast_response n w4.

(** [step_failure location w line w']: in the pass that starts the
    analysis of [location] in world [w], every step before some step
    returned success, that step returned failure leaving world [w'], and
    [line] is the error line the orchestrator prints for it. *)
Inductive step_failure (location : string) (w : world E)
  : string -> world E -> Prop :=
| PlanFails msg w' :
    generate_weather_api_calls rt location (at_plan location w)
    = (Val (false, msg), w') ->
    step_failure location w
      ("[ERROR] Failed to generate API calls: " ++ str_of rt msg) w'
| PointsFetchFails points_url w1 msg w' :
    planned location w points_url w1 ->
    execute_curl_command rt points_url (at_points_fetch points_url w1)
    = (Val (false, msg), w') ->
    step_failure location w
      ("[ERROR] Failed to fetch points data: " ++ str_of rt msg) w'
| ExtractFails points_response w2 msg w' :
    points_fetched location w points_response w2 ->
    get_forecast_url_from_points_response rt points_response (at_extract w2)
    = (Val (false, msg), w') ->
    step_failure location w
      ("[ERROR] Failed to extract forecast URL: " ++ str_of rt msg) w'
| ForecastFetchFails forecast_url shown w3 msg w' :
    extracted location w forecast_url shown w3 ->
    execute_curl_command rt forecast_url (at_forecast_fetch shown w3)
    = (Val (false, msg), w') ->
    step_failure location w
      ("[ERROR] Failed to fetch forecast data: " ++ str_of rt msg) w'
| SummaryFails forecast_response n w4 msg w' :
    forecast_fetched location w forecast_response n w4 ->
    process_weather_response rt forecast_response location (at_summary n w4)
    = (Val (false, msg), w') ->
    step_failure location w
      ("[ERROR] Failed to process data: " ++ str_of rt msg) w'.

(** the same world with another line at the head of the pending input *)
Definition with_line (l : string) (rest : list string) (w : world E)
  : world E :=
  {| stdin := l :: rest; env := env w; out := out w |}.

Definition is_dict (v : pyval) : bool :=
  match v with VDict _ => true | _ => false end.

(** the event of constructing the service client *)
Definition client_event : event := Boto3Client "bedrock-runtime" "us-west-2".

(** A computation that leaves the pending console input as it found it. *)
Definition keeps_stdin {A : Type} (m : M E A) : Prop :=
  forall w, stdin (snd (m w)) = stdin w.

(** The input line is one of the three words that end the loop. *)
Definition is_quit_word (line : string) : bool :=
  str_in (lower line) ["quit"; "exit"; "q"].

End Stages.

(* ================================================================== *)
(** ** A scripted runtime

    A stand-in for the services, in the manner of a test double: the client
    constructor has a fixed outcome, the model and curl answer from prepared
    lists, and [json.loads] knows a handful of documents. *)

Module Scripted.

Record script : Type := {
  client : outcome unit;
  replies : list (outcome pyval);
  runs : list (outcome completed)
}.

Definition quoted (s : string) : string := dquote ++ s ++ dquote.

Definition forecast_link : string :=
  "https://api.weather.gov/gridpoints/SEW/125,68/forecast".

(** [{"properties": {"forecast": "<forecast_link>"}}] *)
Definition points_doc : string :=
  "{" ++ quoted "properties" ++ ": {" ++ quoted "forecast" ++ ": "
      ++ quoted forecast_link ++ "}}".

(** [{"properties": {}}] *)
Definition no_forecast_doc : string :=
  "{" ++ quoted "properties" ++ ": {}}".

(** [{"properties": null}] *)
Definition null_properties_doc : string :=
  "{" ++ quoted "properties" ++ ": null}".

Definition canned_loads (s : string) : outcome pyval :=
  if String.eqb s points_doc then
    Returns (VDict [("properties", VDict [("forecast", VStr forecast_link)])])
  else if String.eqb s no_forecast_doc then
    Returns (VDict [("properties", VDict [])])
  else if String.eqb s null_properties_doc then
    Returns (VDict [("properties", VNone)])
  else if String.eqb s "{}" then Returns (VDict [])
  else if String.eqb s "[]" then Returns (VList [])
  else if String.eqb s "42" then Returns (VInt 42)
  else Raises (MkExn JSONDecodeError
                 "Expecting value: line 1 column 1 (char 0)").

Definition plain_repr (v : pyval) : string :=
  match v with
  | VNone => "None"
  | VBool true => "True"
  | VBool false => "False"
  | _ => "<" ++ Py.type_name v ++ ">"
  end.

Definition exhausted : exn :=
  MkExn (OtherError "RuntimeError") "no scripted answer left".

Definition runtime : Runtime script := {|
  boto3_client := fun _ _ e => (client e, e);
  converse := fun _ e =>
    match replies e with
    | [] => (Raises exhausted, e)
    | r :: rest =>
        (r, {| client := client e; replies := rest; runs := runs e |})
    end;
  subprocess_run := fun _ _ e =>
    match runs e with
    | [] => (Raises exhausted, e)
    | r :: rest =>
        (r, {| client := client e; replies := replies e; runs := rest |})
    end;
  json_loads := canned_loads;
  py_repr := plain_repr
|}.

(** a well-formed reply of the model service carrying [text] *)
Definition reply (text : string) : outcome pyval :=
  Returns
    (VDict [("output",
             VDict [("message",
                     VDict [("role", VStr "assistant");
                            ("content",
                             VList [VDict [("text", VStr text)]])])])]).

Definition curl_ok (body : string) : outcome completed :=
  Returns {| returncode := 0; stdout := body; stderr := EmptyString |}.

Definition curl_failed (code : Z) (err : string) : outcome completed :=
  Returns {| returncode := code; stdout := EmptyString; stderr := err |}.

Definition start (lines : list string) (e : script) : world script :=
  {| stdin := lines; env := e; out := [] |}.

(** *** Prepared situations *)

Definition seattle_url : string :=
  "https://api.weather.gov/points/47.6062,-122.3321".

(** everything works *)
Definition healthy : script := {|
  client := Returns tt;
  replies := [reply seattle_url; reply "Sunny and mild through Friday."];
  runs := [curl_ok points_doc; curl_ok "{}"]
|}.

(** the model adds a remark after the coordinates *)
Definition chatty_url : string :=
  "https://api.weather.gov/points/47.6062,-122.3321 (Seattle, WA)".

Definition chatty : script := {|
  client := Returns tt;
  replies := [reply chatty_url];
  runs := []
|}.

(** the model answers in prose, with a line feed at the end *)
Definition prose : string := "I think it's near Seattle" ++ nl.

Definition off_topic : script := {|
  client := Returns tt;
  replies := [reply prose];
  runs := []
|}.

(** the client cannot be constructed *)
Definition unknown_service : exn :=
  MkExn (OtherError "UnknownServiceError")
        "Unknown service: 'bedrock-runtime'.".

Definition no_client : script := {|
  client := Raises unknown_service;
  replies := [];
  runs := []
|}.

(** curl cannot resolve the host *)
Definition resolve_error : string :=
  "curl: (6) Could not resolve host: api.weather.gov".

Definition offline : script := {|
  client := Returns tt;
  replies := [reply seattle_url];
  runs := [curl_failed 6 resolve_error]
|}.

(** the script with its prepared curl runs used up *)
Definition runs_used_up (e : script) : script :=
  {| client := client e; replies := replies e; runs := [] |}.

(** everything works until the summary is asked for *)
Definition throttled : exn :=
  MkExn (OtherError "ThrottlingException") "Too many requests".

Definition summary_refused : script := {|
  client := Returns tt;
  replies := [reply seattle_url; Raises throttled];
  runs := [curl_ok points_doc; curl_ok "{}"]
|}.

(** the error line the orchestrator owes for that *)
Definition offline_line : string :=
  "[ERROR] Failed to fetch points data: Curl command failed: "
  ++ resolve_error.

Definition decode_error : exn :=
  MkExn JSONDecodeError "Expecting value: line 1 column 1 (char 0)".

(** a world with nothing typed and nothing printed yet *)
Definition idle : world script := start [] healthy.

(** the user types a location and curl is offline *)
Definition seattle_offline : world script := start ["Seattle"; "quit"] offline.

(** the world in which that pass calls the planner, and the worlds the
    planner and the points fetch leave behind *)
Definition seattle_offline_prompted : world script :=
  prompted input_prompt ["quit"] seattle_offline.

Definition seattle_offline_planned : world script :=
  snd (generate_weather_api_calls runtime "Seattle"
         (at_plan "Seattle" seattle_offline_prompted)).

Definition seattle_offline_fetched : world script :=
  snd (execute_curl_command runtime (VStr seattle_url)
         (at_points_fetch runtime (VStr seattle_url)
            seattle_offline_planned)).

End Scripted.

(* ================================================================== *)
(** ** Measures of a computation *)

Section Measures.
Context {E : Type} (rt : Runtime E).

Definition is_model_call (ev : event) : bool :=
  match ev with Converse _ => true | _ => false end.

Definition is_curl_run (ev : event) : bool :=
  match ev with SubprocessRun _ _ => true | _ => false end.

Definition model_calls (evs : list event) : nat :=
  List.length (filter is_model_call evs).

Definition curl_runs (evs : list event) : nat :=
  List.length (filter is_curl_run evs).

(** [spends m c r]: run in any world, [m] only adds events at the end of
    the sequence, among them at most [c] model calls and [r] curl runs. *)
Definition spends {A : Type} (m : M E A) (c r : nat) : Prop :=
  forall w,
    exists evs,
      out (snd (m w)) = out w ++ evs
      /\ model_calls evs <= c /\ curl_runs evs <= r.

Definition is_input (ev : event) : bool :=
  match ev with Input _ => true | _ => false end.

(** [never_prompts m]: run in any world, [m] only adds events at the end of
    the sequence, and none of them is a call of [input()]. *)
Definition never_prompts {A : Type} (m : M E A) : Prop :=
  forall w,
    exists evs,
      out (snd (m w)) = out w ++ evs /\ existsb is_input evs = false.

(** what the console shows for a run of blank lines: for each of them the
    prompt and the error line *)
Definition blank_answers (blanks : list string) : list event :=
  flat_map (fun _ => [Input input_prompt; Print empty_input_error]) blanks.

(** [s] occurs in [t] with [p] before it and [q] after it. *)
Definition embeds (s t : string) : Prop :=
  exists p q, t = (p ++ s ++ q)%string.

(** the world after the closing prints of a pass that went through
    (lines 230-235) *)
Definition displayed (location : string) (summary : pyval) (w : world E)
  : world E :=
  say (nl ++ "[SUCCESS] Weather analysis complete for '" ++ location ++ "'!")
    (say (times "=" 60)
       (say (str_of rt summary)
          (say (times "=" 60)
             (say (nl ++ "Step 6: Weather Forecast") w)))).

(** the world after the three opening prints and a prompt that found the
    console at its end *)
Definition ended (w : world E) : world E :=
  emit (Input input_prompt) (banner w).

End Measures.

(* ================================================================== *)
(** ** More prepared situations for the scripted runtime *)

Module Situations.
Import Scripted.

(** a reply whose content list is empty *)
Definition empty_content_reply : outcome pyval :=
  Returns
    (VDict [("output",
             VDict [("message",
                     VDict [("role", VStr "assistant");
                            ("content", VList [])])])]).

Definition empty_content : script := {|
  client := Returns tt;
  replies := [empty_content_reply];
  runs := []
|}.

(** a reply whose text is [None] *)
Definition null_text_reply : outcome pyval :=
  Returns
    (VDict [("output",
             VDict [("message",
                     VDict [("role", VStr "assistant");
                            ("content", VList [VDict [("text", VNone)]])])])]).

Definition null_text : script := {|
  client := Returns tt;
  replies := [null_text_reply];
  runs := []
|}.

(** the model service refuses the first call *)
Definition model_down : script := {|
  client := Returns tt;
  replies := [Raises throttled];
  runs := []
|}.

(** [{"properties": {"forecast": null}}] *)
Definition null_forecast_doc : string :=
  "{" ++ quoted "properties" ++ ": {" ++ quoted "forecast" ++ ": null}}".

Definition more_loads (s : string) : outcome pyval :=
  if String.eqb s null_forecast_doc then
    Returns (VDict [("properties", VDict [("forecast", VNone)])])
  else canned_loads s.

(** the scripted runtime, knowing one document more *)
Definition runtime_more : Runtime script := {|
  boto3_client := boto3_client runtime;
  converse := converse runtime;
  subprocess_run := subprocess_run runtime;
  json_loads := more_loads;
  py_repr := plain_repr
|}.

Definition null_forecast : script := {|
  client := Returns tt;
  replies := [reply seattle_url];
  runs := [curl_ok null_forecast_doc]
|}.

(** [NaN], which [json.loads] accepts although it is no JSON, and a thousand
    opening brackets, on which it gives up *)
Definition deep_brackets : string := times "[" 1000.

Definition recursion_error : exn :=
  MkExn (OtherError "RecursionError")
    ("maximum recursion depth exceeded "
     ++ "while decoding a JSON array from a unicode string").

Definition lenient_loads (s : string) : outcome pyval :=
  if String.eqb s "NaN" then Returns (VFloat "nan")
  else if String.eqb s deep_brackets then Raises recursion_error
  else more_loads s.

Definition runtime_lenient : Runtime script := {|
  boto3_client := boto3_client runtime;
  converse := converse runtime;
  subprocess_run := subprocess_run runtime;
  json_loads := lenient_loads;
  py_repr := plain_repr
|}.

(** the user interrupts the model call, or the curl run *)
Definition model_interrupted : script := {|
  client := Returns tt;
  replies := [RaisesBase KeyboardInterrupt];
  runs := []
|}.

Definition curl_interrupted : script := {|
  client := Returns tt;
  replies := [];
  runs := [RaisesBase KeyboardInterrupt]
|}.

Definition not_subscriptable_none : exn :=
  MkExn TypeError "'NoneType' object is not subscriptable".

(** the worlds of the pass in which the points document has a null
    forecast *)
Definition null_forecast_start : world script :=
  start ["Seattle"; "quit"] null_forecast.

Definition null_forecast_prompted : world script :=
  prompted input_prompt ["quit"] null_forecast_start.

Definition null_forecast_planned : world script :=
  snd (generate_weather_api_calls runtime_more "Seattle"
         (at_plan "Seattle" null_forecast_prompted)).

Definition null_forecast_fetched : world script :=
  snd (execute_curl_command runtime_more (VStr seattle_url)
         (at_points_fetch runtime_more (VStr seattle_url)
            null_forecast_planned)).

(** the worlds of a pass in which everything works *)
Definition healthy_start : world script := start ["Seattle"; "quit"] healthy.

Definition healthy_prompted : world script :=
  prompted input_prompt ["quit"] healthy_start.

Definition healthy_planned : world script :=
  snd (generate_weather_api_calls runtime "Seattle"
         (at_plan "Seattle" healthy_prompted)).

Definition healthy_points : world script :=
  snd (execute_curl_command runtime (VStr seattle_url)
         (at_points_fetch runtime (VStr seattle_url) healthy_planned)).

Definition healthy_extracted : world script :=
  snd (get_forecast_url_from_points_response runtime (VStr points_doc)
         (at_extract healthy_points)).

Definition healthy_forecast : world script :=
  snd (execute_curl_command runtime (VStr forecast_link)
         (at_forecast_fetch runtime (VStr forecast_link) healthy_extracted)).

Definition healthy_summarised : world script :=
  snd (process_weather_response runtime (VStr "{}") "Seattle"
         (at_summary 2 healthy_forecast)).

Definition sunny : string := "Sunny and mild through Friday.".

(** the world after the whole run, when everything works *)
Definition healthy_finished : world script :=
  match run_weather_agent runtime 2 healthy_start with
  | Some (_, w) => w
  | None => healthy_start
  end.

(** the worlds of the planner's and the client's witnesses *)
Definition null_text_asked : world script :=
  asking "Seattle" (start [] null_text).

Definition model_down_asked : world script :=
  asking "Seattle" (start [] model_down).

Definition used_up (e : script) : script :=
  {| client := client e; replies := []; runs := runs e |}.

End Situations.

(* ================================================================== *)
(** ** Facts about text *)

Lemma isspace_lower_char (c : ascii) : isspace (lower_char c) = isspace c.
Proof. destruct c as [[] [] [] [] [] [] [] []]; reflexivity. Qed.

Lemma lstrip_lower (s : string) : lstrip (lower s) = lower (lstrip s).
Proof.
  induction s as [|c r IH]; simpl; [reflexivity|].
  rewrite isspace_lower_char. destruct (isspace c); [exact IH | reflexivity].
Qed.

Lemma rstrip_lower (s : string) : rstrip (lower s) = lower (rstrip s).
Proof.
  induction s as [|c r IH]; simpl; [reflexivity|].
  rewrite IH. destruct (rstrip r); simpl; [|reflexivity].
  rewrite isspace_lower_char. destruct (isspace c); reflexivity.
Qed.

Lemma strip_lower (s : string) : strip (lower s) = lower (strip s).
Proof. unfold strip. now rewrite lstrip_lower, rstrip_lower. Qed.

Lemma lstrip_all_space (s : string) :
  all_space s = true -> lstrip s = EmptyString.
Proof.
  unfold all_space. induction s as [|c r IH]; simpl; [reflexivity|].
  intros H. apply andb_true_iff in H as [Hc Hr]. rewrite Hc. now apply IH.
Qed.

Lemma strip_all_space (s : string) :
  all_space s = true -> strip s = EmptyString.
Proof. intros H. unfold strip. now rewrite (lstrip_all_space s H). Qed.

Lemma rstrip_idem (s : string) : rstrip (rstrip s) = rstrip s.
Proof.
  induction s as [|c r IH]; simpl; [reflexivity|].
  destruct (rstrip r) as [|c' r'] eqn:Hr.
  - destruct (isspace c) eqn:Hc; simpl; [reflexivity|]. now rewrite Hc.
  - remember (String c' r') as t eqn:Ht. simpl. rewrite IH.
    subst t. reflexivity.
Qed.

Lemma lstrip_rstrip_head (s : string) :
  lstrip s = s -> lstrip (rstrip s) = rstrip s.
Proof.
  destruct s as [|c r]; simpl; [reflexivity|].
  destruct (isspace c) eqn:Hc.
  - intros H. exfalso.
    assert (L : forall t, String.length (lstrip t) <= String.length t).
    { induction t as [|a t IHt]; simpl; [lia|].
      destruct (isspace a); simpl; lia. }
    specialize (L r). rewrite H in L. simpl in L. lia.
  - intros _. destruct (rstrip r); simpl; now rewrite Hc.
Qed.

Lemma lstrip_idem (s : string) : lstrip (lstrip s) = lstrip s.
Proof.
  induction s as [|c r IH]; simpl; [reflexivity|].
  destruct (isspace c) eqn:Hc; [exact IH|]. simpl. now rewrite Hc.
Qed.

(** Stripping a stripped string changes nothing. *)
Lemma strip_idem (s : string) : strip (strip s) = strip s.
Proof.
  unfold strip.
  rewrite (lstrip_rstrip_head (lstrip s) (lstrip_idem s)).
  apply rstrip_idem.
Qed.

(* ================================================================== *)
(** ** The leaf components *)

Section Components.
Context {E : Type} (rt : Runtime E).

Ltac run := unfold try_except, bind, lift, ret, raise, raise_base, call; simpl.

(** *** Response Parser *)

(** A string that [json.loads] rejects with [JSONDecodeError] makes the
    Response Parser return failure; the message is the fixed lead-in followed
    by the text of the decode error, and nothing is raised. *)
Theorem invalid_json_is_reported (s : string) (e : exn) (w : world E) :
  json_loads rt s = Raises e ->
  exn_cls e = JSONDecodeError ->
  get_forecast_url_from_points_response rt (VStr s) w
  = (Val (false, VStr ("Error parsing Points API response: " ++ exn_str e)),
     w).
Proof.
  intros Hload Hcls.
  unfold get_forecast_url_from_points_response. run.
  rewrite Hload. simpl. unfold isinstance. rewrite Hcls. reflexivity.
Qed.

(** X2.  When the decoded document is an object that lacks [properties], or
    whose [properties] is an object that lacks [forecast], the parser returns
    failure and the message names the missing key. *)
Lemma missing_key_is_reported (s : string) (items : list (string * pyval))
      (w : world E) :
  json_loads rt s = Returns (VDict items) ->
  (Py.lookup "properties" items = None ->
   get_forecast_url_from_points_response rt (VStr s) w
   = (Val (false, VStr "Error parsing Points API response: 'properties'"), w))
  /\
  (forall inner,
     Py.lookup "properties" items = Some (VDict inner) ->
     Py.lookup "forecast" inner = None ->
     get_forecast_url_from_points_response rt (VStr s) w
     = (Val (false, VStr "Error parsing Points API response: 'forecast'"), w)).
Proof.
  intros Hload. split.
  - intros Hp. unfold get_forecast_url_from_points_response. run.
    rewrite Hload. simpl. rewrite Hp. reflexivity.
  - intros inner Hp Hf. unfold get_forecast_url_from_points_response. run.
    rewrite Hload. simpl. rewrite Hp. simpl. rewrite Hf. reflexivity.
Qed.

(** The value found at [properties.forecast] is returned as it is. *)
Lemma forecast_is_returned (s : string) (items inner : list (string * pyval))
      (v : pyval) (w : world E) :
  json_loads rt s = Returns (VDict items) ->
  Py.lookup "properties" items = Some (VDict inner) ->
  Py.lookup "forecast" inner = Some v ->
  get_forecast_url_from_points_response rt (VStr s) w = (Val (true, v), w).
Proof.
  intros Hload Hp Hf. unfold get_forecast_url_from_points_response. run.
  rewrite Hload. simpl. rewrite Hp. simpl. rewrite Hf. reflexivity.
Qed.

(** C4.  Not every string outside the JSON grammar ends in
    [JSONDecodeError].  [json.loads] reads [NaN], [Infinity] and [-Infinity]
    as floats, and subscripting a float raises [TypeError]; on input nested
    too deeply it raises [RecursionError].  The except clause on line 127
    names only [JSONDecodeError] and [KeyError], so in both cases the
    exception leaves the Response Parser instead of becoming a failure
    result. *)
Theorem undecodable_input_can_escape (s : string) (w : world E) :
  (forall x,
     json_loads rt s = Returns (VFloat x) ->
     get_forecast_url_from_points_response rt (VStr s) w
     = (Raise (MkExn TypeError "'float' object is not subscriptable"), w))
  /\ (forall e,
       json_loads rt s = Raises e ->
       isinstance e [JSONDecodeError; KeyError] = false ->
       get_forecast_url_from_points_response rt (VStr s) w = (Raise e, w)).
Proof.
  split.
  - intros x Hload. unfold get_forecast_url_from_points_response. run.
    rewrite Hload. reflexivity.
  - intros e Hload Hcls. unfold get_forecast_url_from_points_response. run.
    rewrite Hload. simpl. now rewrite Hcls.
Qed.

(** C2.  When the decoded document is not an object, or its [properties] is
    not an object, subscripting it raises [TypeError]; the except clause
    names only [JSONDecodeError] and [KeyError], so the exception leaves the
    Response Parser instead of becoming a failure result. *)
Theorem non_object_document_escapes (s : string) (data : pyval)
        (w : world E) :
  json_loads rt s = Returns data ->
  (is_dict data = false
   \/ exists items p,
        data = VDict items
        /\ Py.lookup "properties" items = Some p /\ is_dict p = false) ->
  exists e,
    exn_cls e = TypeError
    /\ get_forecast_url_from_points_response rt (VStr s) w = (Raise e, w).
Proof.
  intros Hload [Hnd | (items & p & -> & Hp & Hnd)].
  - unfold get_forecast_url_from_points_response. run. rewrite Hload.
    destruct data; try discriminate Hnd; simpl; eexists; split;
      try reflexivity; reflexivity.
  - unfold get_forecast_url_from_points_response. run. rewrite Hload.
    simpl. rewrite Hp.
    destruct p; try discriminate Hnd; simpl; eexists; split;
      try reflexivity; reflexivity.
Qed.

(** *** Command Execution wrapper *)

(** C5.  When [subprocess.run] returns or raises an error, the wrapper
    returns a pair: exit status zero gives [(True, stdout)]; another exit
    status gives [(False, "Curl command failed: " + stderr)];
    [TimeoutExpired] gives the fixed time-out message; any other exception
    derived from [Exception] gives
    [(False, "Error executing curl: " + str(e))].  Success is returned
    exactly when the command ran and exited with status zero. *)
Theorem execute_curl_command_contract (url : pyval) (w : world E)
        (o : outcome completed) (e' : E) :
  subprocess_run rt (curl_argv url) 30 (env w) = (o, e') ->
  let w' := called (SubprocessRun (curl_argv url) 30) e' w in
  (forall r, o = Returns r -> returncode r = 0%Z ->
     execute_curl_command rt url w = (Val (true, VStr (stdout r)), w'))
  /\ (forall r, o = Returns r -> returncode r <> 0%Z ->
       execute_curl_command rt url w
       = (Val (false, VStr ("Curl command failed: " ++ stderr r)), w'))
  /\ (forall e, o = Raises e -> exn_cls e = TimeoutExpired ->
       execute_curl_command rt url w
       = (Val (false, VStr "Request timed out after 30 seconds"), w'))
  /\ (forall e, o = Raises e -> exn_cls e <> TimeoutExpired ->
       execute_curl_command rt url w
       = (Val (false, VStr ("Error executing curl: " ++ exn_str e)), w'))
  /\ (forall v w2,
       execute_curl_command rt url w = (Val (true, v), w2)
       <-> exists r,
           o = Returns r /\ returncode r = 0%Z
           /\ v = VStr (stdout r) /\ w2 = w').
Proof.
  intros Hrun w'. subst w'.
  assert (Hcls : forall e, exn_cls e <> TimeoutExpired ->
                           isinstance e [TimeoutExpired] = false).
  { intros e Hne. unfold isinstance. simpl.
    destruct (exn_cls e); try reflexivity. now elim Hne. }
  unfold execute_curl_command. run. rewrite Hrun.
  repeat split.
  - intros r -> Hz. simpl. now rewrite Hz.
  - intros r -> Hnz. simpl.
    destruct (returncode r =? 0)%Z eqn:Hq; [|reflexivity].
    apply Z.eqb_eq in Hq. contradiction.
  - intros e -> Hc. simpl. unfold isinstance. rewrite Hc. reflexivity.
  - intros e -> Hc. simpl. now rewrite (Hcls e Hc).
  - destruct o as [r | e | b]; simpl.
    + destruct (returncode r =? 0)%Z eqn:Hq; intros H; inversion H; subst.
      apply Z.eqb_eq in Hq. now exists r.
    + destruct (isinstance e [TimeoutExpired]); intros H; inversion H.
    + intros H; inversion H.
  - intros (r & -> & Hz & -> & ->). simpl. now rewrite Hz.
Qed.

(** *** Text Generation Client *)

(** C6.  [boto3.client(...)] is called before the [try] block is entered, so
    an exception it raises is not converted into a failure pair: it leaves
    [call_claude_sonnet], and the model is never called. *)
Theorem client_construction_error_escapes (prompt : string) (w : world E)
        (e : exn) (e' : E) :
  boto3_client rt "bedrock-runtime" "us-west-2" (env w) = (Raises e, e') ->
  call_claude_sonnet rt prompt w = (Raise e, called client_event e' w).
Proof.
  intros Hc. unfold call_claude_sonnet. run. rewrite Hc. reflexivity.
Qed.

(** The subscripts of the interpreter raise errors only. *)
Lemma getitem_str_raises_errors_only (v : pyval) (key : string)
      (b : base_exn) :
  Py.getitem_str v key <> RaisesBase b.
Proof.
  destruct v as [ | x | x | x | x | x | items]; simpl; try discriminate.
  destruct (Py.lookup key items); discriminate.
Qed.

Lemma getitem_0_raises_errors_only (v : pyval) (b : base_exn) :
  Py.getitem_0 v <> RaisesBase b.
Proof.
  destruct v as [ | x | x | x | s | l | items]; simpl; try discriminate.
  - destruct s; discriminate.
  - destruct l; discriminate.
Qed.

Lemma generated_text_raises_errors_only (response : pyval) (b : base_exn) :
  generated_text response <> RaisesBase b.
Proof.
  unfold generated_text.
  destruct (Py.getitem_str response "output") as [o | e | b0] eqn:H1;
    simpl; [|discriminate | now apply getitem_str_raises_errors_only in H1].
  destruct (Py.getitem_str o "message") as [m | e | b0] eqn:H2;
    simpl; [|discriminate | now apply getitem_str_raises_errors_only in H2].
  destruct (Py.getitem_str m "content") as [c | e | b0] eqn:H3;
    simpl; [|discriminate | now apply getitem_str_raises_errors_only in H3].
  destruct (Py.getitem_0 c) as [f | e | b0] eqn:H4;
    simpl; [|discriminate | now apply getitem_0_raises_errors_only in H4].
  apply getitem_str_raises_errors_only.
Qed.

(** X1.  Once the client exists, no error escapes: an exception derived from
    [Exception] that the remote call raises, or that reading the text out of
    its reply raises, becomes a failure pair, and a reply of the expected
    shape gives success with the text of its first content element.  What
    [except Exception] on line 35 does not catch, such as a
    [KeyboardInterrupt] during the remote call, leaves the function, and
    nothing else does. *)
Lemma call_claude_sonnet_contained (prompt : string) (w : world E)
      (e1 : E) (o : outcome pyval) (e2 : E) :
  boto3_client rt "bedrock-runtime" "us-west-2" (env w) = (Returns tt, e1) ->
  converse rt (claude_request prompt) e1 = (o, e2) ->
  let w' := called (Converse (claude_request prompt)) e2
              (called client_event e1 w) in
  call_claude_sonnet rt prompt w
  = (match and_then o generated_text with
     | Returns text => Val (true, text)
     | Raises e =>
         Val (false, VStr ("Error calling Claude: " ++ exn_str e))
     | RaisesBase b => RaiseBase b
     end, w')
  /\ (forall b, and_then o generated_text = RaisesBase b <-> o = RaisesBase b).
Proof.
  intros Hc Hv w'. subst w'. split.
  - unfold call_claude_sonnet. run. rewrite Hc. simpl. rewrite Hv.
    destruct o as [response | e | b]; simpl; [|reflexivity | reflexivity].
    destruct (generated_text response); reflexivity.
  - intros b. destruct o as [response | e | b0]; simpl.
    + split; [|discriminate]. intros H.
      now apply generated_text_raises_errors_only in H.
    + split; discriminate.
    + reflexivity.
Qed.

End Components.

(* ================================================================== *)
(** ** The Planner *)

Lemma substring_all (s : string) : substring 0 (String.length s) s = s.
Proof. induction s as [|c r IH]; simpl; [reflexivity | now rewrite IH]. Qed.

Lemma substring_after (p s : string) :
  substring (String.length p) (String.length s) (p ++ s) = s.
Proof. induction p as [|c r IH]; simpl; [apply substring_all | exact IH]. Qed.

(** A string occurs in itself with any text put before it. *)
Lemma occurs_after (p s : string) : occurs s (p ++ s) = true.
Proof.
  unfold occurs. destruct (index 0 s (p ++ s)) eqn:H; [reflexivity|].
  destruct s as [|c r].
  - destruct (p ++ EmptyString)%string; discriminate H.
  - exfalso.
    apply (index_correct3 0 (String.length p) (String c r) (p ++ String c r) H).
    + discriminate.
    + lia.
    + apply substring_after.
Qed.

Section Planner.
Context {E : Type} (rt : Runtime E).

(** C1, as the code has it.  When the Planner returns success, the model
    call returned some text, and the Planner's result is the one-element
    list holding that text stripped; the stripped text starts with the
    points prefix.  Nothing is checked after the prefix. *)
Theorem planner_success_is_prefixed_output (location : string)
        (w w' : world E) (api_calls : pyval) :
  generate_weather_api_calls rt location w = (Val (true, api_calls), w') ->
  exists text,
    call_claude_sonnet rt (planner_prompt location) (asking location w)
    = (Val (true, VStr text), w')
    /\ api_calls = VList [VStr (strip text)]
    /\ startswith (strip text) points_prefix = true.
Proof.
  unfold generate_weather_api_calls, asking, say, bind, print.
  destruct (call_claude_sonnet rt (planner_prompt location) _)
    as [[[success response] | | | e | b] w1]; try discriminate.
  destruct success; unfold ret; [|discriminate].
  destruct response; cbn [Py.strip lift raise]; unfold ret, raise;
    try discriminate.
  destruct (startswith (strip s) points_prefix) eqn:Hp; [|discriminate].
  intros H. inversion H; subst. exists s. repeat split. exact Hp.
Qed.

(** C3, as the code has it.  When the model's text, once stripped, does not
    start with the points prefix, the Planner returns failure and the
    message is the fixed lead-in followed by the stripped text, which
    therefore occurs in it verbatim. *)
Theorem planner_rejects_unprefixed_output (location text : string)
        (w w' : world E) :
  call_claude_sonnet rt (planner_prompt location) (asking location w)
  = (Val (true, VStr text), w') ->
  startswith (strip text) points_prefix = false ->
  generate_weather_api_calls rt location w
  = (Val (false, VStr ("AI generated invalid URL: " ++ strip text)), w')
  /\ occurs (strip text) ("AI generated invalid URL: " ++ strip text) = true.
Proof.
  intros Hcall Hp. split; [|apply occurs_after].
  unfold generate_weather_api_calls, bind, print.
  unfold asking, say in Hcall. rewrite Hcall.
  cbn [Py.strip lift]. unfold ret. now rewrite Hp.
Qed.

(** X18.  When the model call itself fails, the Planner passes its message
    on unchanged. *)
Lemma planner_passes_model_failure (location : string) (msg : pyval)
      (w w' : world E) :
  call_claude_sonnet rt (planner_prompt location) (asking location w)
  = (Val (false, msg), w') ->
  generate_weather_api_calls rt location w = (Val (false, msg), w').
Proof.
  intros Hcall. unfold generate_weather_api_calls, bind, print.
  unfold asking, say in Hcall. now rewrite Hcall.
Qed.

End Planner.

(* ================================================================== *)
(** ** The Orchestrator *)

Section Orchestrator.
Context {E : Type} (rt : Runtime E).

Ltac unfold_monad :=
  unfold when_, lift; unfold bind, print, ret, raise, continue_, break_.

(** The pass reads one line; what follows depends on the line stripped. *)
Lemma iteration_on_line (w : world E) (l : string) (rest : list string) :
  stdin w = l :: rest ->
  let w1 := prompted input_prompt rest w in
  iteration rt w
  = if is_quit_word (strip l) then (Break, say farewell w1)
    else if is_empty (strip l) then (Continue, say empty_input_error w1)
    else weather_analysis rt (strip l) w1.
Proof.
  intros Hin w1. subst w1. unfold iteration, is_quit_word.
  unfold bind at 1. unfold input. rewrite Hin.
  unfold bind at 1. unfold when_ at 1.
  destruct (str_in (lower (strip l)) _).
  - reflexivity.
  - unfold ret at 1. unfold bind at 1. unfold when_ at 1.
    destruct (is_empty (strip l)); reflexivity.
Qed.

(** At end of input [input()] raises [EOFError], which ends the loop. *)
Lemma iteration_at_end_of_input (w : world E) :
  stdin w = [] ->
  iteration rt w
  = (Raise (MkExn EOFError "EOF when reading a line"),
     emit (Input input_prompt) w).
Proof.
  intros Hin. unfold iteration. unfold bind at 1. unfold input.
  now rewrite Hin.
Qed.

(** A step that returns failure ends the analysis with one error line. *)
Lemma failed_step_ends_analysis (location line : string) (w w' : world E) :
  step_failure rt location w line w' ->
  weather_analysis rt location w = (Continue, say line w').
Proof.
  intros H. unfold weather_analysis.
  inversion H as
    [ msg wa H1
    | points_url w1 msg wa Hp H2
    | points_response w2 msg wa Hf H3
    | forecast_url shown w3 msg wa Hx H4
    | forecast_response n w4 msg wa Hff H5 ]; subst.
  - unfold at_plan, say in H1. unfold_monad. now rewrite H1.
  - destruct Hp as [api_calls points_url w1 H1 G1].
    unfold at_plan, say in H1. unfold at_points_fetch, say in H2.
    unfold_monad. rewrite H1. cbn [negb]. rewrite G1. cbn [negb].
    now rewrite H2.
  - destruct Hf as [points_url w1 points_response w2 Hp H2].
    destruct Hp as [api_calls points_url w1 H1 G1].
    unfold at_plan, say in H1. unfold at_points_fetch, say in H2.
    unfold at_extract, say in H3.
    unfold_monad. rewrite H1. cbn [negb]. rewrite G1. cbn [negb]. rewrite H2.
    cbn [negb]. now rewrite H3.
  - destruct Hx as [points_response w2 forecast_url shown w3 Hf H3 G3].
    destruct Hf as [points_url w1 points_response w2 Hp H2].
    destruct Hp as [api_calls points_url w1 H1 G1].
    unfold at_plan, say in H1. unfold at_points_fetch, say in H2.
    unfold at_extract, say in H3. unfold at_forecast_fetch, say in H4.
    unfold_monad. rewrite H1. cbn [negb]. rewrite G1. cbn [negb]. rewrite H2.
    cbn [negb]. rewrite H3. cbn [negb]. rewrite G3. cbn [negb]. now rewrite H4.
  - destruct Hff as [forecast_url shown w3 forecast_response n w4 Hx H4 G4].
    destruct Hx as [points_response w2 forecast_url shown w3 Hf H3 G3].
    destruct Hf as [points_url w1 points_response w2 Hp H2].
    destruct Hp as [api_calls points_url w1 H1 G1].
    unfold at_plan, say in H1. unfold at_points_fetch, say in H2.
    unfold at_extract, say in H3. unfold at_forecast_fetch, say in H4.
    unfold at_summary, say in H5.
    unfold_monad. rewrite H1. cbn [negb]. rewrite G1. cbn [negb]. rewrite H2.
    cbn [negb]. rewrite H3. cbn [negb]. rewrite G3. cbn [negb]. rewrite H4.
    cbn [negb]. rewrite G4. cbn [negb]. now rewrite H5.
Qed.

Lemma step_failure_line (location line : string) (w w' : world E) :
  step_failure rt location w line w' -> startswith line "[ERROR]" = true.
Proof. intros H. destruct H; reflexivity. Qed.

(** C7.  In a pass whose input line leads to the analysis, if a pipeline
    step returns failure while every step before it returned success, the
    pass ends by [continue]: the world is the one the failing step left,
    plus one printed line starting with [[ERROR]]; no call follows the
    failing step, and the loop goes on with the next pass, which starts at
    the input prompt. *)
Theorem failed_step_returns_to_prompt (w w' : world E) (l : string)
        (rest : list string) (line : string) (n : nat) :
  stdin w = l :: rest ->
  is_quit_word (strip l) = false ->
  is_empty (strip l) = false ->
  step_failure rt (strip l) (prompted input_prompt rest w) line w' ->
  iteration rt w = (Continue, say line w')
  /\ out (say line w') = out w' ++ [Print line]
  /\ env (say line w') = env w'
  /\ startswith line "[ERROR]" = true
  /\ while_true (S n) (iteration rt) w
     = while_true n (iteration rt) (say line w').
Proof.
  intros Hin Hq He Hf.
  assert (Hit : iteration rt w = (Continue, say line w')).
  { rewrite (iteration_on_line w l rest Hin). cbv zeta. rewrite Hq, He.
    now apply failed_step_ends_analysis. }
  repeat split.
  - exact Hit.
  - exact (step_failure_line _ _ _ _ Hf).
  - cbn [while_true]. now rewrite Hit.
Qed.

(** C8.  When the input line, lower-cased, is [quit], [exit] or [q], the
    pass prints the farewell and leaves the loop: the loop returns, the
    only events of the pass are the prompt and the farewell, and the
    outside services are left untouched. *)
Theorem quit_word_ends_loop (w : world E) (l : string) (rest : list string)
        (n : nat) :
  stdin w = l :: rest ->
  is_quit_word l = true ->
  let w' := say farewell (prompted input_prompt rest w) in
  iteration rt w = (Break, w')
  /\ while_true (S n) (iteration rt) w = Some (Val tt, w')
  /\ out w' = out w ++ [Input input_prompt; Print farewell]
  /\ env w' = env w.
Proof.
  intros Hin Hq w'. subst w'.
  assert (Hs : is_quit_word (strip l) = true).
  { unfold is_quit_word in *. rewrite <- strip_lower.
    unfold str_in in *. cbn [existsb] in *.
    repeat rewrite orb_true_iff in Hq.
    destruct Hq as [Hq | [Hq | [Hq | Hq]]]; try discriminate Hq;
      apply String.eqb_eq in Hq; rewrite Hq; reflexivity. }
  assert (Hit : iteration rt w
                = (Break, say farewell (prompted input_prompt rest w))).
  { rewrite (iteration_on_line w l rest Hin). cbv zeta. now rewrite Hs. }
  repeat split.
  - exact Hit.
  - cbn [while_true]. now rewrite Hit.
  - cbn [say emit prompted out]. now rewrite <- app_assoc.
Qed.

(** C9.  On an empty input line the pass prints the error message and ends
    by [continue]: the only events are the prompt and the message, the
    outside services are left untouched, and the loop goes on with the
    next pass. *)
Theorem empty_input_reprompts (w : world E) (rest : list string) (n : nat) :
  stdin w = EmptyString :: rest ->
  let w' := say empty_input_error (prompted input_prompt rest w) in
  iteration rt w = (Continue, w')
  /\ while_true (S n) (iteration rt) w
     = while_true n (iteration rt) w'
  /\ out w' = out w ++ [Input input_prompt; Print empty_input_error]
  /\ env w' = env w.
Proof.
  intros Hin w'. subst w'.
  assert (Hit : iteration rt w
                = (Continue,
                   say empty_input_error (prompted input_prompt rest w))).
  { now rewrite (iteration_on_line w EmptyString rest Hin). }
  repeat split.
  - exact Hit.
  - cbn [while_true]. now rewrite Hit.
  - cbn [say emit prompted out]. now rewrite <- app_assoc.
Qed.

(** C10.  The line read is stripped before anything is tested: a line of
    white space only gives the pass an empty line gives; a line that strips
    to a quit word, such as ["  QUIT  "], leaves the loop; any other line
    starts the analysis with the stripped line as its location. *)
Theorem input_is_stripped_first (w : world E) (l : string)
        (rest : list string) :
  stdin w = l :: rest ->
  let w1 := prompted input_prompt rest w in
  (all_space l = true ->
   iteration rt w = (Continue, say empty_input_error w1)
   /\ iteration rt w = iteration rt (with_line EmptyString rest w))
  /\ (is_quit_word (strip l) = true ->
      iteration rt w = (Break, say farewell w1))
  /\ is_quit_word (strip "  QUIT  ") = true
  /\ (is_quit_word (strip l) = false -> is_empty (strip l) = false ->
      iteration rt w = weather_analysis rt (strip l) w1).
Proof.
  intros Hin w1. subst w1.
  pose proof (iteration_on_line w l rest Hin) as Hit. cbv zeta in Hit.
  split; [|split; [|split]].
  - intros Hsp. rewrite Hit, (strip_all_space l Hsp). split; [reflexivity|].
    now rewrite (iteration_on_line (with_line EmptyString rest w)
                   EmptyString rest eq_refl).
  - intros Hq. now rewrite Hit, Hq.
  - reflexivity.
  - intros Hq He. now rewrite Hit, Hq, He.
Qed.

End Orchestrator.

(* ================================================================== *)
(** ** The theorems at work on the scripted runtime *)

Import Scripted.

(** The URL of the specification's first scenario has the shape; the bare
    prefix and a URL with a remark after the coordinates do not. *)
Example shape_examples :
  Shape.points_url seattle_url = true
  /\ Shape.points_url points_prefix = false
  /\ Shape.points_url chatty_url = false.
Proof. split; [|split]; reflexivity. Qed.

(** C1 as stated fails: the model's text starts with the prefix and goes on
    after the coordinates; the Planner returns success with that text, which
    is not of the shape [https://api.weather.gov/points/<lat>,<lon>]. *)
Lemma planner_accepts_text_after_coordinates :
  fst (generate_weather_api_calls runtime "Seattle" (start [] chatty))
  = Val (true, VList [VStr chatty_url])
  /\ Shape.points_url chatty_url = false.
Proof. split; reflexivity. Qed.

Lemma planner_success_is_prefixed_output_witness :
  generate_weather_api_calls runtime "Seattle" (start [] chatty)
  = (Val (true, VList [VStr chatty_url]),
     snd (generate_weather_api_calls runtime "Seattle" (start [] chatty)))
  /\ exists text,
       call_claude_sonnet runtime (planner_prompt "Seattle")
         (asking "Seattle" (start [] chatty))
       = (Val (true, VStr text),
          snd (generate_weather_api_calls runtime "Seattle" (start [] chatty)))
       /\ VList [VStr chatty_url] = VList [VStr (strip text)]
       /\ startswith (strip text) points_prefix = true.
Proof.
  split; [reflexivity|].
  apply (planner_success_is_prefixed_output runtime "Seattle"
           (start [] chatty)).
  reflexivity.
Defined.

(** C3 as stated fails: the model's text ends with a line feed; the Planner
    returns failure, and its message holds the stripped text, in which the
    text as the model gave it does not occur. *)
Lemma planner_message_has_stripped_text_only :
  fst (call_claude_sonnet runtime (planner_prompt "Seattle")
         (asking "Seattle" (start [] off_topic)))
  = Val (true, VStr prose)
  /\ startswith (strip prose) points_prefix = false
  /\ fst (generate_weather_api_calls runtime "Seattle" (start [] off_topic))
     = Val (false, VStr "AI generated invalid URL: I think it's near Seattle")
  /\ occurs prose "AI generated invalid URL: I think it's near Seattle"
     = false.
Proof. split; [|split; [|split]]; reflexivity. Qed.

Lemma planner_rejects_unprefixed_output_witness :
  call_claude_sonnet runtime (planner_prompt "Seattle")
    (asking "Seattle" (start [] off_topic))
  = (Val (true, VStr prose),
     snd (generate_weather_api_calls runtime "Seattle" (start [] off_topic)))
  /\ startswith (strip prose) points_prefix = false
  /\ generate_weather_api_calls runtime "Seattle" (start [] off_topic)
     = (Val (false, VStr ("AI generated invalid URL: " ++ strip prose)),
        snd (generate_weather_api_calls runtime "Seattle" (start [] off_topic)))
  /\ occurs (strip prose) ("AI generated invalid URL: " ++ strip prose) = true.
Proof.
  split; [reflexivity | split; [reflexivity|]].
  apply (planner_rejects_unprefixed_output runtime "Seattle" prose
           (start [] off_topic)); reflexivity.
Defined.

Lemma non_object_document_escapes_witness :
  json_loads runtime "[]" = Returns (VList [])
  /\ is_dict (VList []) = false
  /\ exists e,
       exn_cls e = TypeError
       /\ get_forecast_url_from_points_response runtime (VStr "[]") idle
          = (Raise e, idle).
Proof.
  split; [reflexivity | split; [reflexivity|]].
  apply (non_object_document_escapes runtime "[]" (VList []) idle);
    [reflexivity | left; reflexivity].
Defined.

Lemma invalid_json_is_reported_witness :
  json_loads runtime "<html>" = Raises decode_error
  /\ exn_cls decode_error = JSONDecodeError
  /\ get_forecast_url_from_points_response runtime (VStr "<html>") idle
     = (Val (false,
             VStr ("Error parsing Points API response: "
                   ++ exn_str decode_error)), idle).
Proof.
  split; [reflexivity | split; [reflexivity|]].
  apply (invalid_json_is_reported runtime "<html>" decode_error idle);
    reflexivity.
Defined.

Lemma execute_curl_command_contract_witness :
  subprocess_run runtime (curl_argv (VStr seattle_url)) 30 offline
  = (curl_failed 6 resolve_error, runs_used_up offline)
  /\ execute_curl_command runtime (VStr seattle_url) (start [] offline)
     = (Val (false, VStr ("Curl command failed: " ++ resolve_error)),
        called (SubprocessRun (curl_argv (VStr seattle_url)) 30)
          (runs_used_up offline) (start [] offline)).
Proof.
  split; [reflexivity|].
  destruct (execute_curl_command_contract runtime (VStr seattle_url)
              (start [] offline) (curl_failed 6 resolve_error)
              (runs_used_up offline) eq_refl)
    as (_ & Hnonzero & _).
  apply (Hnonzero _ eq_refl). discriminate.
Defined.

Lemma client_construction_error_escapes_witness :
  boto3_client runtime "bedrock-runtime" "us-west-2" no_client
  = (Raises unknown_service, no_client)
  /\ call_claude_sonnet runtime "Say hello." (start [] no_client)
     = (Raise unknown_service,
        called client_event no_client (start [] no_client)).
Proof.
  split; [reflexivity|].
  apply (client_construction_error_escapes runtime "Say hello."
           (start [] no_client) unknown_service no_client).
  reflexivity.
Defined.

Lemma seattle_offline_fails_at_points_fetch :
  step_failure runtime "Seattle" seattle_offline_prompted offline_line
    seattle_offline_fetched.
Proof.
  apply (PointsFetchFails runtime "Seattle" seattle_offline_prompted
           (VStr seattle_url) seattle_offline_planned
           (VStr ("Curl command failed: " ++ resolve_error))
           seattle_offline_fetched).
  - now apply (Planned runtime "Seattle" seattle_offline_prompted
                 (VList [VStr seattle_url]) (VStr seattle_url)
                 seattle_offline_planned).
  - reflexivity.
Defined.

(** The last of the five steps can be the one that fails, all four before
    it having returned success. *)
Example summary_can_fail :
  exists w',
    step_failure runtime "Seattle"
      (prompted input_prompt [] (start ["Seattle"] summary_refused))
      "[ERROR] Failed to process data: Error calling Claude: Too many requests"
      w'.
Proof.
  eexists.
  eapply (SummaryFails runtime "Seattle" _ (VStr "{}") 2 _
            (VStr "Error calling Claude: Too many requests")).
  - eapply ForecastFetched with (forecast_url := VStr forecast_link)
                                (shown := VStr forecast_link).
    + eapply Extracted with (points_response := VStr points_doc).
      * eapply PointsFetched with (points_url := VStr seattle_url).
        -- eapply Planned with (api_calls := VList [VStr seattle_url]);
             reflexivity.
        -- reflexivity.
      * reflexivity.
      * reflexivity.
    + reflexivity.
    + reflexivity.
  - reflexivity.
Qed.

Lemma failed_step_returns_to_prompt_witness :
  stdin seattle_offline = "Seattle" :: ["quit"]
  /\ is_quit_word (strip "Seattle") = false
  /\ is_empty (strip "Seattle") = false
  /\ step_failure runtime (strip "Seattle") seattle_offline_prompted
       offline_line seattle_offline_fetched
  /\ iteration runtime seattle_offline
     = (Continue, say offline_line seattle_offline_fetched)
  /\ while_true 2 (iteration runtime) seattle_offline
     = while_true 1 (iteration runtime)
         (say offline_line seattle_offline_fetched).
Proof.
  split; [reflexivity | split; [reflexivity | split; [reflexivity|]]].
  split; [exact seattle_offline_fails_at_points_fetch|].
  destruct (failed_step_returns_to_prompt runtime seattle_offline
              seattle_offline_fetched "Seattle" ["quit"] offline_line 1
              eq_refl eq_refl eq_refl seattle_offline_fails_at_points_fetch)
    as (Hpass & _ & _ & _ & Hloop).
  split; [exact Hpass | exact Hloop].
Defined.

(** The specification's fifth scenario from start to end: the points fetch
    exits with a non-zero status; the pass records one model call and one curl
    run, and the next pass reads [quit]. *)
Example scenario_points_fetch_fails :
  option_map fst (run_weather_agent runtime 2 seattle_offline) = Some (Val tt)
  /\ option_map (fun r => filter is_network_call (out (snd r)))
       (run_weather_agent runtime 2 seattle_offline)
     = Some [Converse (claude_request (planner_prompt "Seattle"));
             SubprocessRun (curl_argv (VStr seattle_url)) 30].
Proof. split; reflexivity. Qed.

(** The first scenario: everything works; the pass records the planner's
    model call, the two curl runs and the summariser's model call, in that
    order, and the second line ends the loop. *)
Example scenario_seattle :
  option_map fst (run_weather_agent runtime 2 (start ["Seattle"; "q"] healthy))
  = Some (Val tt)
  /\ option_map (fun r => filter is_network_call (out (snd r)))
       (run_weather_agent runtime 2 (start ["Seattle"; "q"] healthy))
     = Some [Converse (claude_request (planner_prompt "Seattle"));
             SubprocessRun (curl_argv (VStr seattle_url)) 30;
             SubprocessRun (curl_argv (VStr forecast_link)) 30;
             Converse (claude_request
                         (summary_prompt runtime (VStr "{}") "Seattle"))].
Proof. split; reflexivity. Qed.

(** The fourth scenario: the model answers in prose; the pass prints the
    error line with the stripped answer and runs no curl. *)
Example scenario_planner_rejects :
  option_map (fun r => filter is_network_call (out (snd r)))
    (run_weather_agent runtime 2 (start ["Seattle"; "exit"] off_topic))
  = Some [Converse (claude_request (planner_prompt "Seattle"))]
  /\ option_map (fun r => last (removelast (removelast (out (snd r))))
                          (Print EmptyString))
       (run_weather_agent runtime 2 (start ["Seattle"; "exit"] off_topic))
     = Some (Print ("[ERROR] Failed to generate API calls: "
                    ++ "AI generated invalid URL: I think it's near Seattle")).
Proof. split; reflexivity. Qed.

(** With no line left to read the loop ends with [EOFError]. *)
Example scenario_end_of_input :
  option_map fst (run_weather_agent runtime 1 (start [] healthy))
  = Some (Raise (MkExn EOFError "EOF when reading a line")).
Proof. reflexivity. Qed.

(** A points document whose [properties] is [null] ends the process: the
    [TypeError] leaves the parser and the orchestrator does not catch it. *)
Example scenario_null_properties :
  option_map fst
    (run_weather_agent runtime 2
       (start ["Seattle"; "quit"]
          {| client := Returns tt;
             replies := [reply seattle_url];
             runs := [curl_ok null_properties_doc] |}))
  = Some (Raise (MkExn TypeError "'NoneType' object is not subscriptable")).
Proof. reflexivity. Qed.

Lemma quit_word_ends_loop_witness :
  stdin (start ["Quit"; "Seattle"] healthy) = "Quit" :: ["Seattle"]
  /\ is_quit_word "Quit" = true
  /\ iteration runtime (start ["Quit"; "Seattle"] healthy)
     = (Break,
        say farewell
          (prompted input_prompt ["Seattle"]
             (start ["Quit"; "Seattle"] healthy)))
  /\ while_true 1 (iteration runtime) (start ["Quit"; "Seattle"] healthy)
     = Some (Val tt,
             say farewell
               (prompted input_prompt ["Seattle"]
                  (start ["Quit"; "Seattle"] healthy))).
Proof.
  split; [reflexivity | split; [reflexivity|]].
  destruct (quit_word_ends_loop runtime (start ["Quit"; "Seattle"] healthy)
              "Quit" ["Seattle"] 0 eq_refl eq_refl)
    as (Hpass & Hloop & _).
  split; [exact Hpass | exact Hloop].
Defined.

Lemma empty_input_reprompts_witness :
  stdin (start [EmptyString; "quit"] healthy) = EmptyString :: ["quit"]
  /\ iteration runtime (start [EmptyString; "quit"] healthy)
     = (Continue,
        say empty_input_error
          (prompted input_prompt ["quit"]
             (start [EmptyString; "quit"] healthy)))
  /\ while_true 2 (iteration runtime) (start [EmptyString; "quit"] healthy)
     = while_true 1 (iteration runtime)
         (say empty_input_error
            (prompted input_prompt ["quit"]
               (start [EmptyString; "quit"] healthy))).
Proof.
  split; [reflexivity|].
  destruct (empty_input_reprompts runtime
              (start [EmptyString; "quit"] healthy) ["quit"] 1 eq_refl)
    as (Hpass & Hloop & _).
  split; [exact Hpass | exact Hloop].
Defined.

Lemma input_is_stripped_first_witness :
  stdin (start ["  QUIT  "; "Seattle"] healthy) = "  QUIT  " :: ["Seattle"]
  /\ is_quit_word (strip "  QUIT  ") = true
  /\ iteration runtime (start ["  QUIT  "; "Seattle"] healthy)
     = (Break,
        say farewell
          (prompted input_prompt ["Seattle"]
             (start ["  QUIT  "; "Seattle"] healthy))).
Proof.
  split; [reflexivity | split; [reflexivity|]].
  destruct (input_is_stripped_first runtime
              (start ["  QUIT  "; "Seattle"] healthy) "  QUIT  " ["Seattle"]
              eq_refl)
    as (_ & Hquit & _).
  exact (Hquit eq_refl).
Defined.

(* ================================================================== *)
(** ** The loop ends on every finite input

    Only [input()] takes lines from the console, and every pass of the loop
    that does not leave it takes one; so the loop ends, by [break] or by an
    exception (at the latest [EOFError]), within as many passes as there are
    pending lines plus one. *)

Section Termination.
Context {E : Type} (rt : Runtime E).

Lemma keeps_ret {A} (a : A) : keeps_stdin (E := E) (ret a).
Proof. intros w. reflexivity. Qed.

Lemma keeps_raise {A} (e : exn) : keeps_stdin (E := E) (A := A) (raise e).
Proof. intros w. reflexivity. Qed.

Lemma keeps_continue {A} : keeps_stdin (E := E) (A := A) continue_.
Proof. intros w. reflexivity. Qed.

Lemma keeps_print (line : string) : keeps_stdin (E := E) (print line).
Proof. intros w. reflexivity. Qed.

Lemma keeps_lift {A} (o : outcome A) : keeps_stdin (E := E) (lift o).
Proof. intros w. destruct o; reflexivity. Qed.

Lemma keeps_call {A} (ev : event) (f : E -> outcome A * E) :
  keeps_stdin (call ev f).
Proof.
  intros w. unfold call. destruct (f (env w)) as [[a | e | b] e']; reflexivity.
Qed.

Lemma keeps_bind {A B} (m : M E A) (k : A -> M E B) :
  keeps_stdin m -> (forall a, keeps_stdin (k a)) -> keeps_stdin (bind m k).
Proof.
  intros Hm Hk w. unfold bind. specialize (Hm w).
  destruct (m w) as [[a | | | e | b] w1]; simpl in *; try exact Hm.
  now rewrite (Hk a w1).
Qed.

Lemma keeps_try {A} (body : M E A) (handler : exn -> option (M E A)) :
  keeps_stdin body ->
  (forall e h, handler e = Some h -> keeps_stdin h) ->
  keeps_stdin (try_except body handler).
Proof.
  intros Hb Hh w. unfold try_except. specialize (Hb w).
  destruct (body w) as [[a | | | e | b] w1]; simpl in *; try exact Hb.
  destruct (handler e) as [h|] eqn:He; simpl; [|exact Hb].
  now rewrite (Hh e h He w1).
Qed.

Lemma keeps_when (c : bool) (body : M E unit) :
  keeps_stdin body -> keeps_stdin (when_ c body).
Proof. intros Hb. destruct c; [exact Hb | apply keeps_ret]. Qed.

(** [keeps_with known] breaks a computation into its statements, going by
    the shape of the term; [known] closes the calls of functions already
    dealt with. *)
Ltac keeps_with known :=
  repeat
    lazymatch goal with
    | |- keeps_stdin (ret _) => apply keeps_ret
    | |- keeps_stdin (raise _) => apply keeps_raise
    | |- keeps_stdin continue_ => apply keeps_continue
    | |- keeps_stdin (print _) => apply keeps_print
    | |- keeps_stdin (lift _) => apply keeps_lift
    | |- keeps_stdin (call _ _) => apply keeps_call
    | |- keeps_stdin (when_ _ _) => apply keeps_when
    | |- keeps_stdin (bind _ _) => apply keeps_bind; [|intro]
    | |- keeps_stdin (let (_, _) := ?p in _) => destruct p
    | |- keeps_stdin (if ?c then _ else _) => destruct c
    | |- keeps_stdin (let _ := _ in _) => cbv zeta
    | |- keeps_stdin _ => known
    end.

Ltac keeps := keeps_with fail.

Lemma call_claude_sonnet_keeps_stdin (prompt : string) :
  keeps_stdin (call_claude_sonnet rt prompt).
Proof.
  unfold call_claude_sonnet. apply keeps_bind; [keeps | intro].
  apply keeps_try; [keeps|]. intros e h H. inversion H. keeps.
Qed.

Lemma execute_curl_command_keeps_stdin (url : pyval) :
  keeps_stdin (execute_curl_command rt url).
Proof.
  unfold execute_curl_command. apply keeps_try; [keeps|].
  intros e h H. destruct (isinstance e [TimeoutExpired]); inversion H; keeps.
Qed.

Lemma generate_weather_api_calls_keeps_stdin (location : string) :
  keeps_stdin (generate_weather_api_calls rt location).
Proof.
  unfold generate_weather_api_calls.
  keeps_with ltac:(apply call_claude_sonnet_keeps_stdin).
Qed.

Lemma get_forecast_url_keeps_stdin (points_json : pyval) :
  keeps_stdin (get_forecast_url_from_points_response rt points_json).
Proof.
  unfold get_forecast_url_from_points_response. apply keeps_try; [keeps|].
  intros e h H.
  destruct (isinstance e [JSONDecodeError; KeyError]); inversion H; keeps.
Qed.

Lemma process_weather_response_keeps_stdin (raw_json : pyval)
      (location : string) :
  keeps_stdin (process_weather_response rt raw_json location).
Proof.
  unfold process_weather_response.
  keeps_with ltac:(apply call_claude_sonnet_keeps_stdin).
Qed.

Ltac keeps_step :=
  lazymatch goal with
  | |- keeps_stdin (generate_weather_api_calls _ _) =>
      apply generate_weather_api_calls_keeps_stdin
  | |- keeps_stdin (execute_curl_command _ _) =>
      apply execute_curl_command_keeps_stdin
  | |- keeps_stdin (get_forecast_url_from_points_response _ _) =>
      apply get_forecast_url_keeps_stdin
  | |- keeps_stdin (process_weather_response _ _ _) =>
      apply process_weather_response_keeps_stdin
  end.

Lemma weather_analysis_keeps_stdin (location : string) :
  keeps_stdin (weather_analysis rt location).
Proof. unfold weather_analysis. keeps_with ltac:(idtac; keeps_step). Qed.

(** A pass that does not leave the loop has taken one line. *)
Lemma iteration_takes_a_line (w w' : world E) (r : res unit) :
  iteration rt w = (r, w') ->
  (exists l, stdin w = l :: stdin w')
  \/ (stdin w = [] /\ exists e, r = Raise e).
Proof.
  destruct (stdin w) as [|l rest] eqn:Hin.
  - rewrite (iteration_at_end_of_input rt w Hin). intros H. right.
    split; [reflexivity|]. inversion H. eexists. reflexivity.
  - rewrite (iteration_on_line rt w l rest Hin). cbv zeta. intros H. left.
    exists l. f_equal.
    destruct (is_quit_word (strip l)); [now inversion H|].
    destruct (is_empty (strip l)); [now inversion H|].
    pose proof (weather_analysis_keeps_stdin (strip l)
                  (prompted input_prompt rest w)) as Hk.
    rewrite H in Hk. simpl in Hk. now rewrite Hk.
Qed.

Lemma while_true_returns (n : nat) :
  forall w : world E,
    List.length (stdin w) < n ->
    exists r w', while_true n (iteration rt) w = Some (r, w').
Proof.
  induction n as [|n IH]; intros w Hlen; [lia|].
  cbn [while_true].
  destruct (iteration rt w) as [r w1] eqn:Hit.
  destruct (iteration_takes_a_line w w1 r Hit) as [[l Hl] | [Hnil [e ->]]].
  - assert (Hlt : List.length (stdin w1) < n).
    { rewrite Hl in Hlen. simpl in Hlen. lia. }
    destruct r as [[] | | | e | b]; try (apply IH; exact Hlt);
      eexists; eexists; reflexivity.
  - eexists; eexists; reflexivity.
Qed.

(** X13.  [run_weather_agent] returns on every finite console input: one
    pass more than there are pending lines is enough. *)
Theorem run_weather_agent_returns (w : world E) :
  exists r w',
    run_weather_agent rt (S (List.length (stdin w))) w = Some (r, w').
Proof.
  unfold run_weather_agent. apply while_true_returns.
  unfold banner, say, emit. simpl. lia.
Qed.

End Termination.

(* ================================================================== *)
(** ** Further properties of the components *)

Section MoreComponents.
Context {E : Type} (rt : Runtime E).

(** X3.  The Response Parser returns success exactly when the decoded
    document is an object whose [properties] is an object that has
    [forecast]; the value returned is that entry as it is, of whatever type,
    and the world is left as it was. *)
Theorem forecast_found_iff (points_json v : pyval) (w w' : world E) :
  get_forecast_url_from_points_response rt points_json w = (Val (true, v), w')
  <-> w' = w
      /\ exists items inner,
           loads rt points_json = Returns (VDict items)
           /\ Py.lookup "properties" items = Some (VDict inner)
           /\ Py.lookup "forecast" inner = Some v.
Proof.
  unfold get_forecast_url_from_points_response, try_except, bind, lift,
    ret, raise, raise_base.
  split.
  - destruct (loads rt points_json) as [data | e | b0];
      [| |intros H; discriminate H].
    + destruct data as [ | b | z | x | x | l | items]; simpl;
        try (intros H; discriminate H).
      destruct (Py.lookup "properties" items) as [p|] eqn:Hp; simpl;
        [|intros H; discriminate H].
      destruct p as [ | b | z | x | x | l | inner]; simpl;
        try (intros H; discriminate H).
      destruct (Py.lookup "forecast" inner) as [f|] eqn:Hf; simpl;
        [|intros H; discriminate H].
      intros H. inversion H; subst. split; [reflexivity|].
      exists items, inner. repeat split; assumption.
    + destruct (isinstance e [JSONDecodeError; KeyError]);
        intros H; discriminate H.
  - intros (-> & items & inner & Hl & Hp & Hf).
    rewrite Hl. simpl. rewrite Hp. simpl. rewrite Hf. reflexivity.
Qed.

(** X4.  The Response Parser performs no call and prints nothing: whatever
    it is given and however it ends, the world is the one it started in. *)
Theorem parser_leaves_world (points_json : pyval) (w : world E) :
  snd (get_forecast_url_from_points_response rt points_json w) = w.
Proof.
  unfold get_forecast_url_from_points_response, try_except, bind, lift,
    ret, raise, raise_base.
  destruct (loads rt points_json) as [data | e | b]; simpl;
    [| |reflexivity].
  - destruct (Py.getitem_str data "properties") as [p | e | b]; simpl;
      [| |reflexivity].
    + destruct (Py.getitem_str p "forecast") as [f | e | b]; simpl;
        [reflexivity| |reflexivity].
      destruct (isinstance e [JSONDecodeError; KeyError]); reflexivity.
    + destruct (isinstance e [JSONDecodeError; KeyError]); reflexivity.
  - destruct (isinstance e [JSONDecodeError; KeyError]); reflexivity.
Qed.

(** X5.  The Command Execution wrapper lets no error out: for every
    argument, string or not, it makes exactly one run of [curl -s <url>] with
    a timeout of 30, and whether that run returns or raises an exception
    derived from [Exception], the wrapper returns a pair whose second
    component is a string.  Only what lines 59 to 62 do not catch, an
    exception that does not derive from [Exception] such as a
    [KeyboardInterrupt] during the run, leaves the wrapper. *)
Theorem execute_curl_command_contains_errors (url : pyval) (w : world E) :
  exists o e',
    subprocess_run rt [VStr "curl"; VStr "-s"; url] 30 (env w) = (o, e')
    /\ match o with
       | RaisesBase b =>
           execute_curl_command rt url w
           = (RaiseBase b,
              called (SubprocessRun [VStr "curl"; VStr "-s"; url] 30) e' w)
       | _ =>
           exists ok text,
             execute_curl_command rt url w
             = (Val (ok, VStr text),
                called (SubprocessRun [VStr "curl"; VStr "-s"; url] 30) e' w)
       end.
Proof.
  unfold execute_curl_command, try_except, bind, call, ret, curl_argv.
  destruct (subprocess_run rt [VStr "curl"; VStr "-s"; url] 30 (env w))
    as [[r | e | b] e'];
    eexists; eexists; (split; [reflexivity|]).
  - destruct (returncode r =? 0)%Z; do 2 eexists; reflexivity.
  - destruct (isinstance e [TimeoutExpired]); do 2 eexists; reflexivity.
  - reflexivity.
Qed.

(** X6.  When the model call returns success with something that is not a
    string, the Planner's [response.strip()] raises [AttributeError], which
    nothing in the Planner catches. *)
Theorem planner_raises_on_non_string_text (location : string) (v : pyval)
        (w w' : world E) :
  call_claude_sonnet rt (planner_prompt location) (asking location w)
  = (Val (true, v), w') ->
  (forall s, v <> VStr s) ->
  exists e,
    exn_cls e = AttributeError
    /\ generate_weather_api_calls rt location w = (Raise e, w').
Proof.
  intros Hcall Hns. unfold generate_weather_api_calls, bind, print.
  unfold asking, say in Hcall. rewrite Hcall.
  destruct v as [ | b | z | x | s | l | d];
    try (eexists; split; [|reflexivity]; reflexivity).
  now elim (Hns s).
Qed.

(** X7.  The URL of a successful Planner result can be taken out with
    [api_calls[0]], has no white space at either end, and starts with the
    points prefix. *)
Theorem planner_url_is_trimmed (location : string) (api_calls : pyval)
        (w w' : world E) :
  generate_weather_api_calls rt location w = (Val (true, api_calls), w') ->
  exists url,
    Py.getitem_0 api_calls = Returns (VStr url)
    /\ lstrip url = url /\ rstrip url = url
    /\ startswith url points_prefix = true.
Proof.
  unfold generate_weather_api_calls, bind, print.
  destruct (call_claude_sonnet rt (planner_prompt location) _)
    as [[[success response] | | | e | b] w1]; try discriminate.
  destruct success; unfold ret; [|discriminate].
  destruct response; cbn [Py.strip lift raise]; unfold ret, raise;
    try discriminate.
  destruct (startswith (strip s) points_prefix) eqn:Hp; [|discriminate].
  intros H. inversion H; subst. exists (strip s).
  split; [reflexivity|]. split; [|split; [|exact Hp]].
  - unfold strip. apply lstrip_rstrip_head, lstrip_idem.
  - unfold strip. apply rstrip_idem.
Qed.

(** X8.  The Summary Generator adds nothing of its own to the result: after
    its progress line it ends exactly as the model call on its prompt ends,
    be it success with the model's text, failure with the client's message,
    or an exception. *)
Theorem summary_generator_passes_result (raw_json : pyval)
        (location : string) (w : world E) :
  process_weather_response rt raw_json location w
  = call_claude_sonnet rt (summary_prompt rt raw_json location)
      (say "AI is processing weather data and creating summary..." w).
Proof.
  unfold process_weather_response, bind, print, say.
  destruct (call_claude_sonnet rt (summary_prompt rt raw_json location) _)
    as [[[success response] | | | e | b] w1]; reflexivity.
Qed.

End MoreComponents.

(* ================================================================== *)
(** ** What the prompts contain *)

Lemma append_assoc (a b c : string) :
  ((a ++ b) ++ c = a ++ (b ++ c))%string.
Proof. induction a as [|x a IH]; simpl; [reflexivity | now rewrite IH]. Qed.

Lemma append_empty_r (a : string) : (a ++ EmptyString)%string = a.
Proof. induction a as [|x a IH]; simpl; [reflexivity | now rewrite IH]. Qed.

Lemma substring_head (s q : string) :
  substring 0 (String.length s) (s ++ q) = s.
Proof.
  induction s as [|c r IH]; simpl.
  - destruct q; reflexivity.
  - now rewrite IH.
Qed.

Lemma substring_inside (p s q : string) :
  substring (String.length p) (String.length s) (p ++ s ++ q) = s.
Proof. induction p as [|c r IH]; simpl; [apply substring_head | exact IH]. Qed.

(** What is embedded is found by the substring test. *)
Lemma embeds_occurs (s t : string) : embeds s t -> occurs s t = true.
Proof.
  intros (p & q & ->). unfold occurs.
  destruct (index 0 s (p ++ s ++ q)) eqn:H; [reflexivity|].
  destruct s as [|c r].
  - destruct (p ++ EmptyString ++ q)%string; discriminate H.
  - exfalso.
    apply (index_correct3 0 (String.length p) (String c r)
             (p ++ String c r ++ q) H).
    + discriminate.
    + lia.
    + apply substring_inside.
Qed.

Lemma embeds_refl (s : string) : embeds s s.
Proof. exists EmptyString, EmptyString. simpl. now rewrite append_empty_r. Qed.

Lemma embeds_append_l (s a b : string) : embeds s a -> embeds s (a ++ b).
Proof.
  intros (p & q & ->). exists p, (q ++ b)%string.
  now rewrite !append_assoc.
Qed.

Lemma embeds_append_r (s a b : string) : embeds s b -> embeds s (a ++ b).
Proof.
  intros (p & q & ->). exists (a ++ p)%string, q.
  now rewrite !append_assoc.
Qed.

(** What a line embeds, the text made of the lines embeds. *)
Lemma embeds_unlines (s l : string) (ls : list string) :
  In l ls -> embeds s l -> embeds s (unlines ls).
Proof.
  induction ls as [|x ls IH]; intros Hin Hl; [contradiction|].
  cbn [unlines]. destruct Hin as [-> | Hin].
  - now apply embeds_append_l.
  - apply embeds_append_r, embeds_append_r. now apply IH.
Qed.

Section Prompts.
Context {E : Type} (rt : Runtime E).

(** X9.  The location, between double quotes, occurs unchanged in the prompt
    of the Planner and in the prompt of the Summary Generator, and the
    forecast text occurs unchanged in the latter: nothing is escaped or cut. *)
Theorem prompts_embed_inputs (location : string) (raw_json : pyval) :
  occurs (dquote ++ location ++ dquote) (planner_prompt location) = true
  /\ occurs (dquote ++ location ++ dquote)
       (summary_prompt rt raw_json location) = true
  /\ occurs (str_of rt raw_json) (summary_prompt rt raw_json location) = true.
Proof.
  assert (Hq : forall a b : string,
             embeds (dquote ++ location ++ dquote)
               (a ++ dquote ++ location ++ dquote ++ b)).
  { intros a b. exists a, b. now rewrite !append_assoc. }
  split; [|split]; apply embeds_occurs.
  - unfold planner_prompt.
    eapply embeds_unlines; [do 3 right; left; reflexivity | apply Hq].
  - unfold summary_prompt.
    eapply embeds_unlines; [right; left; reflexivity | apply Hq].
  - unfold summary_prompt.
    eapply embeds_unlines; [do 4 right; left; reflexivity | apply embeds_refl].
Qed.

End Prompts.

(* ================================================================== *)
(** ** How many calls a pass can make *)

Lemma model_calls_app (a b : list event) :
  model_calls (a ++ b) = model_calls a + model_calls b.
Proof. unfold model_calls. now rewrite filter_app, length_app. Qed.

Lemma curl_runs_app (a b : list event) :
  curl_runs (a ++ b) = curl_runs a + curl_runs b.
Proof. unfold curl_runs. now rewrite filter_app, length_app. Qed.

Section Spending.
Context {E : Type} (rt : Runtime E).

Lemma spends_nothing {A} (m : M E A) :
  (forall w, snd (m w) = w) -> spends m 0 0.
Proof.
  intros H w. exists []. rewrite (H w), app_nil_r. repeat split; apply le_n.
Qed.

Lemma spends_ret {A} (a : A) : spends (E := E) (ret a) 0 0.
Proof. now apply spends_nothing. Qed.

Lemma spends_raise {A} (e : exn) : spends (E := E) (A := A) (raise e) 0 0.
Proof. now apply spends_nothing. Qed.

Lemma spends_continue {A} : spends (E := E) (A := A) continue_ 0 0.
Proof. now apply spends_nothing. Qed.

Lemma spends_break {A} : spends (E := E) (A := A) break_ 0 0.
Proof. now apply spends_nothing. Qed.

Lemma spends_lift {A} (o : outcome A) : spends (E := E) (lift o) 0 0.
Proof. apply spends_nothing. intros w. destruct o; reflexivity. Qed.

Lemma spends_print (line : string) : spends (E := E) (print line) 0 0.
Proof. intros w. exists [Print line]. repeat split; apply le_n. Qed.

Lemma spends_input (prompt : string) : spends (E := E) (input prompt) 0 0.
Proof.
  intros w. exists [Input prompt]. unfold input.
  destruct (stdin w); repeat split; apply le_n.
Qed.

Lemma spends_call {A} (ev : event) (f : E -> outcome A * E) :
  spends (call ev f) (model_calls [ev]) (curl_runs [ev]).
Proof.
  intros w. exists [ev]. unfold call.
  destruct (f (env w)) as [[a | e | b] e']; repeat split; apply le_n.
Qed.

Lemma spends_le {A} (m : M E A) (c r c' r' : nat) :
  spends m c r -> c <= c' -> r <= r' -> spends m c' r'.
Proof.
  intros H Hc Hr w. destruct (H w) as (evs & Ho & Hm & Hu).
  exists evs. repeat split; [exact Ho | lia | lia].
Qed.

Lemma spends_bind {A B} (m : M E A) (k : A -> M E B) (c r c' r' : nat) :
  spends m c r -> (forall a, spends (k a) c' r') ->
  spends (bind m k) (c + c') (r + r').
Proof.
  intros Hm Hk w. unfold bind. destruct (Hm w) as (evs & Ho & Hc & Hr).
  destruct (m w) as [[a | | | e | b] w1]; simpl in *;
    try (exists evs; repeat split; [exact Ho | lia | lia]).
  destruct (Hk a w1) as (evs' & Ho' & Hc' & Hr').
  exists (evs ++ evs'). rewrite Ho', Ho, app_assoc.
  rewrite model_calls_app, curl_runs_app.
  repeat split; lia.
Qed.

Lemma spends_try {A} (body : M E A) (handler : exn -> option (M E A))
      (c r c' r' : nat) :
  spends body c r ->
  (forall e h, handler e = Some h -> spends h c' r') ->
  spends (try_except body handler) (c + c') (r + r').
Proof.
  intros Hb Hh w. unfold try_except.
  destruct (Hb w) as (evs & Ho & Hc & Hr).
  destruct (body w) as [[a | | | e | b] w1]; simpl in *;
    try (exists evs; repeat split; [exact Ho | lia | lia]).
  destruct (handler e) as [h|] eqn:He;
    [|exists evs; repeat split; [exact Ho | lia | lia]].
  destruct (Hh e h He w1) as (evs' & Ho' & Hc' & Hr').
  exists (evs ++ evs'). rewrite Ho', Ho, app_assoc.
  rewrite model_calls_app, curl_runs_app.
  repeat split; lia.
Qed.

Lemma spends_when (c : bool) (body : M E unit) (a b : nat) :
  spends body a b -> spends (when_ c body) a b.
Proof.
  intros Hb. destruct c; [exact Hb|].
  apply (spends_le (ret tt) 0 0); [apply spends_ret | lia | lia].
Qed.

Lemma spends_if {A} (c : bool) (m1 m2 : M E A) (a b a' b' : nat) :
  spends m1 a b -> spends m2 a' b' ->
  spends (if c then m1 else m2) (Nat.max a a') (Nat.max b b').
Proof.
  intros H1 H2. destruct c.
  - apply (spends_le m1 a b); [exact H1 | lia | lia].
  - apply (spends_le m2 a' b'); [exact H2 | lia | lia].
Qed.

(** [spends_with known] breaks a computation into its statements, going by
    the shape of the term, and adds up what they spend. *)
Ltac spends_with known :=
  repeat
    lazymatch goal with
    | |- spends (ret _) _ _ => eapply spends_ret
    | |- spends (raise _) _ _ => eapply spends_raise
    | |- spends continue_ _ _ => eapply spends_continue
    | |- spends break_ _ _ => eapply spends_break
    | |- spends (print _) _ _ => eapply spends_print
    | |- spends (input _) _ _ => eapply spends_input
    | |- spends (lift _) _ _ => eapply spends_lift
    | |- spends (call _ _) _ _ => eapply spends_call
    | |- spends (when_ _ _) _ _ => eapply spends_when
    | |- spends (bind _ _) _ _ => eapply spends_bind; [|intro]
    | |- spends (let (_, _) := ?p in _) _ _ => destruct p
    | |- spends (if _ then _ else _) _ _ => eapply spends_if
    | |- spends (let _ := _ in _) _ _ => cbv zeta
    | |- spends _ _ _ => known
    end.

Lemma call_claude_sonnet_spends (prompt : string) :
  spends (call_claude_sonnet rt prompt) 1 0.
Proof.
  eapply spends_le.
  - unfold call_claude_sonnet. eapply spends_bind; [spends_with fail | intro].
    eapply spends_try; [spends_with fail|].
    intros e h H. inversion H. spends_with fail.
  - vm_compute. lia.
  - vm_compute. lia.
Qed.

Lemma execute_curl_command_spends (url : pyval) :
  spends (execute_curl_command rt url) 0 1.
Proof.
  eapply spends_le.
  - unfold execute_curl_command. eapply spends_try; [spends_with fail|].
    intros e h H.
    destruct (isinstance e [TimeoutExpired]); inversion H; spends_with fail.
  - vm_compute. lia.
  - vm_compute. lia.
Qed.

Lemma get_forecast_url_spends (points_json : pyval) :
  spends (get_forecast_url_from_points_response rt points_json) 0 0.
Proof.
  apply spends_nothing. intros w.
  unfold get_forecast_url_from_points_response, try_except, bind, lift,
    ret, raise, raise_base.
  destruct (loads rt points_json) as [data | e | b]; simpl;
    [| |reflexivity].
  - destruct (Py.getitem_str data "properties") as [p | e | b]; simpl;
      [| |reflexivity].
    + destruct (Py.getitem_str p "forecast") as [f | e | b]; simpl;
        [reflexivity| |reflexivity].
      destruct (isinstance e [JSONDecodeError; KeyError]); reflexivity.
    + destruct (isinstance e [JSONDecodeError; KeyError]); reflexivity.
  - destruct (isinstance e [JSONDecodeError; KeyError]); reflexivity.
Qed.

Lemma generate_weather_api_calls_spends (location : string) :
  spends (generate_weather_api_calls rt location) 1 0.
Proof.
  eapply spends_le.
  - unfold generate_weather_api_calls.
    spends_with ltac:(idtac; eapply call_claude_sonnet_spends).
  - vm_compute. lia.
  - vm_compute. lia.
Qed.

Lemma process_weather_response_spends (raw_json : pyval) (location : string) :
  spends (process_weather_response rt raw_json location) 1 0.
Proof.
  eapply spends_le.
  - unfold process_weather_response.
    spends_with ltac:(idtac; eapply call_claude_sonnet_spends).
  - vm_compute. lia.
  - vm_compute. lia.
Qed.

Ltac spends_step :=
  lazymatch goal with
  | |- spends (generate_weather_api_calls _ _) _ _ =>
      eapply generate_weather_api_calls_spends
  | |- spends (execute_curl_command _ _) _ _ =>
      eapply execute_curl_command_spends
  | |- spends (get_forecast_url_from_points_response _ _) _ _ =>
      eapply get_forecast_url_spends
  | |- spends (process_weather_response _ _ _) _ _ =>
      eapply process_weather_response_spends
  end.

Lemma weather_analysis_spends (location : string) :
  spends (weather_analysis rt location) 2 2.
Proof.
  eapply spends_le.
  - unfold weather_analysis. spends_with ltac:(idtac; spends_step).
  - vm_compute. lia.
  - vm_compute. lia.
Qed.

Lemma iteration_spends : spends (iteration rt) 2 2.
Proof.
  eapply spends_le.
  - unfold iteration.
    spends_with ltac:(idtac; eapply weather_analysis_spends).
  - vm_compute. lia.
  - vm_compute. lia.
Qed.

(** X15.  One pass of the loop only appends to what has been printed and
    called so far, and among what it appends there are at most two model
    calls and at most two curl runs, however the steps end: nothing is
    tried twice. *)
Theorem pass_network_calls_bounded (w : world E) :
  exists evs,
    out (snd (iteration rt w)) = out w ++ evs
    /\ model_calls evs <= 2 /\ curl_runs evs <= 2.
Proof. exact (iteration_spends w). Qed.

End Spending.

(* ================================================================== *)
(** ** Further properties of the loop *)

Section MoreOrchestrator.
Context {E : Type} (rt : Runtime E).

Ltac unfold_steps :=
  unfold when_, lift; unfold bind, print, ret, raise, continue_, break_.

Lemma while_true_continue (fuel : nat) (body : M E unit) (w w1 : world E) :
  body w = (Continue, w1) ->
  while_true (S fuel) body w = while_true fuel body w1.
Proof. intros H. cbn [while_true]. now rewrite H. Qed.

(** X10.  When all five steps return success, the pass prints the heading,
    a line of sixty [=], the summary, the same line again and the closing
    line, ends normally, and the loop goes on with the next pass. *)
Theorem successful_pass_displays_summary (w w4 w5 : world E) (l : string)
        (rest : list string) (forecast_response summary : pyval)
        (n k : nat) :
  stdin w = l :: rest ->
  is_quit_word (strip l) = false ->
  is_empty (strip l) = false ->
  forecast_fetched rt (strip l) (prompted input_prompt rest w)
    forecast_response n w4 ->
  process_weather_response rt forecast_response (strip l) (at_summary n w4)
  = (Val (true, summary), w5) ->
  iteration rt w = (Val tt, displayed rt (strip l) summary w5)
  /\ while_true (S k) (iteration rt) w
     = while_true k (iteration rt) (displayed rt (strip l) summary w5).
Proof.
  intros Hin Hq He Hff H5.
  assert (Hit : iteration rt w = (Val tt, displayed rt (strip l) summary w5)).
  { rewrite (iteration_on_line rt w l rest Hin). cbv zeta. rewrite Hq, He.
    destruct Hff as [forecast_url shown w3 forecast_response n w4 Hx H4 G4].
    destruct Hx as [points_response w2 forecast_url shown w3 Hf H3 G3].
    destruct Hf as [points_url w1 points_response w2 Hp H2].
    destruct Hp as [api_calls points_url w1 H1 G1].
    unfold at_plan, say in H1. unfold at_points_fetch, say in H2.
    unfold at_extract, say in H3. unfold at_forecast_fetch, say in H4.
    unfold at_summary, say in H5.
    unfold weather_analysis, displayed, say. unfold_steps.
    rewrite H1. cbn [negb]. rewrite G1. cbn [negb]. rewrite H2.
    cbn [negb]. rewrite H3. cbn [negb]. rewrite G3. cbn [negb]. rewrite H4.
    cbn [negb]. rewrite G4. cbn [negb]. now rewrite H5. }
  split; [exact Hit|]. cbn [while_true]. now rewrite Hit.
Qed.

(** X11.  The Response Parser hands on whatever it finds at
    [properties.forecast].  When that value cannot be sliced (it is [None],
    a number, a boolean or an object), [forecast_url[:60]] in the success
    line raises; the exception leaves the pass in the world the parser left,
    before anything more is printed or fetched, and ends the loop. *)
Theorem unshowable_forecast_url_ends_loop (w w2 w3 : world E) (l : string)
        (rest : list string) (points_response forecast_url : pyval)
        (e : exn) (k : nat) :
  stdin w = l :: rest ->
  is_quit_word (strip l) = false ->
  is_empty (strip l) = false ->
  points_fetched rt (strip l) (prompted input_prompt rest w)
    points_response w2 ->
  get_forecast_url_from_points_response rt points_response (at_extract w2)
  = (Val (true, forecast_url), w3) ->
  Py.slice_to 60 forecast_url = Raises e ->
  iteration rt w = (Raise e, w3)
  /\ while_true (S k) (iteration rt) w = Some (Raise e, w3).
Proof.
  intros Hin Hq He Hf H3 G3.
  assert (Hit : iteration rt w = (Raise e, w3)).
  { rewrite (iteration_on_line rt w l rest Hin). cbv zeta. rewrite Hq, He.
    destruct Hf as [points_url w1 points_response w2 Hp H2].
    destruct Hp as [api_calls points_url w1 H1 G1].
    unfold at_plan, say in H1. unfold at_points_fetch, say in H2.
    unfold at_extract, say in H3.
    unfold weather_analysis. unfold_steps.
    rewrite H1. cbn [negb]. rewrite G1. cbn [negb]. rewrite H2.
    cbn [negb]. rewrite H3. cbn [negb]. now rewrite G3. }
  split; [exact Hit|]. cbn [while_true]. now rewrite Hit.
Qed.

(** The values [v] for which [v[:60]] raises. *)
Lemma slice_raises_iff (v : pyval) :
  (exists e, Py.slice_to 60 v = Raises e)
  <-> (forall s, v <> VStr s) /\ (forall items, v <> VList items).
Proof.
  split.
  - intros [e H]. split; intros x ->; discriminate H.
  - intros [Hs Hl].
    destruct v as [ | b | z | x | s | items | d];
      try (eexists; reflexivity).
    + now elim (Hs s).
    + now elim (Hl items).
Qed.

(** X12.  When the console is at its end, [input()] raises [EOFError]; the
    orchestrator has no handler, so after the three opening lines and the
    prompt [run_weather_agent] ends with that exception. *)
Theorem end_of_input_ends_loop (w : world E) (k : nat) :
  stdin w = [] ->
  run_weather_agent rt (S k) w
  = Some (Raise (MkExn EOFError "EOF when reading a line"), ended w).
Proof.
  intros Hin. unfold run_weather_agent, ended. cbn [while_true].
  now rewrite (iteration_at_end_of_input rt (banner w) Hin).
Qed.

Lemma while_true_spends (fuel : nat) :
  forall (w w' : world E) (r : res unit),
    while_true fuel (iteration rt) w = Some (r, w') ->
    exists evs,
      out w' = out w ++ evs
      /\ model_calls evs <= 2 * List.length (stdin w)
      /\ curl_runs evs <= 2 * List.length (stdin w).
Proof.
  induction fuel as [|fuel IH]; intros w w' r H; [discriminate H|].
  cbn [while_true] in H.
  destruct (stdin w) as [|l rest] eqn:Hin.
  - rewrite (iteration_at_end_of_input rt w Hin) in H.
    inversion H; subst. exists [Input input_prompt].
    repeat split; apply Nat.le_0_l.
  - destruct (iteration_spends rt w) as (evs & Ho & Hc & Hr).
    destruct (iteration rt w) as [r1 w1] eqn:Hit. simpl in Ho.
    destruct (iteration_takes_a_line rt w w1 r1 Hit)
      as [[l' Hl] | [Hnil _]]; [|rewrite Hin in Hnil; discriminate Hnil].
    rewrite Hin in Hl. injection Hl as Hl1 Hl2.
    assert (Hstop : w' = w1 ->
              exists evs0,
                out w' = out w ++ evs0
                /\ model_calls evs0 <= 2 * List.length (l :: rest)
                /\ curl_runs evs0 <= 2 * List.length (l :: rest)).
    { intros ->. exists evs. simpl. repeat split; [exact Ho | lia | lia]. }
    assert (Hgo : while_true fuel (iteration rt) w1 = Some (r, w') ->
              exists evs0,
                out w' = out w ++ evs0
                /\ model_calls evs0 <= 2 * List.length (l :: rest)
                /\ curl_runs evs0 <= 2 * List.length (l :: rest)).
    { intros Hrest.
      destruct (IH w1 w' r Hrest) as (evs' & Ho' & Hc' & Hr').
      exists (evs ++ evs'). rewrite Ho', Ho, app_assoc.
      rewrite model_calls_app, curl_runs_app. rewrite <- Hl2 in Hc', Hr'.
      simpl. repeat split; lia. }
    destruct r1 as [[] | | | e | b].
    + now apply Hgo.
    + now apply Hgo.
    + apply Hstop. now inversion H.
    + apply Hstop. now inversion H.
    + apply Hstop. now inversion H.
Qed.

(** X16.  Over a whole run, the model is called at most twice and curl is
    run at most twice for each line the console holds. *)
Theorem run_network_calls_bounded (fuel : nat) (w w' : world E)
        (r : res unit) :
  run_weather_agent rt fuel w = Some (r, w') ->
  exists evs,
    out w' = out w ++ evs
    /\ model_calls evs <= 2 * List.length (stdin w)
    /\ curl_runs evs <= 2 * List.length (stdin w).
Proof.
  unfold run_weather_agent. intros H.
  destruct (while_true_spends fuel (banner w) w' r H)
    as (evs & Ho & Hc & Hr).
  exists ([Print "Welcome to the Weather AI Agent!";
           Print ("This agent uses Claude 4.5 Sonnet "
                  ++ "to help you get weather forecasts.");
           Print (times "=" 60)] ++ evs).
  rewrite model_calls_app, curl_runs_app.
  split; [|split].
  - rewrite Ho. unfold banner, say, emit. cbn [out].
    now rewrite <- !app_assoc.
  - exact Hc.
  - exact Hr.
Qed.

(** X17.  Lines that are empty or hold white space only are each answered
    with the prompt and the error line; when a quit word follows them, the
    prompt and the farewell are shown and the loop returns.  Nothing else is
    printed, the lines after the quit word are left unread, no model call and
    no curl run is made, and the outside services are left untouched. *)
Theorem blank_lines_then_quit (blanks : list string) (q : string)
        (rest : list string) (k : nat) :
  forall w : world E,
    Forall (fun l => all_space l = true) blanks ->
    is_quit_word (strip q) = true ->
    stdin w = blanks ++ q :: rest ->
    while_true (S (List.length blanks + k)) (iteration rt) w
    = Some (Val tt,
            {| stdin := rest;
               env := env w;
               out := out w ++ blank_answers blanks
                      ++ [Input input_prompt; Print farewell] |})
    /\ filter is_network_call
         (blank_answers blanks ++ [Input input_prompt; Print farewell])
       = [].
Proof.
  induction blanks as [|b blanks IH]; intros w Hall Hq Hin.
  - simpl in Hin. split; [|reflexivity].
    cbn [List.length Nat.add while_true].
    rewrite (iteration_on_line rt w q rest Hin). cbv zeta. rewrite Hq.
    unfold say, emit, prompted, blank_answers. cbn [stdin env out flat_map].
    now rewrite <- app_assoc.
  - simpl in Hin. inversion Hall as [|? ? Hb Hall']; subst.
    destruct (IH (say empty_input_error
                    (prompted input_prompt (blanks ++ q :: rest) w))
                Hall' Hq eq_refl)
      as (Hrun & Hnet).
    split.
    + assert (Hit : iteration rt w
                    = (Continue,
                       say empty_input_error
                         (prompted input_prompt (blanks ++ q :: rest) w))).
      { rewrite (iteration_on_line rt w b (blanks ++ q :: rest) Hin).
        cbv zeta. now rewrite (strip_all_space b Hb). }
      change (S (List.length (b :: blanks) + k))
        with (S (S (List.length blanks + k))).
      rewrite (while_true_continue _ _ _ _ Hit), Hrun.
      unfold say, emit, prompted, blank_answers.
      cbn [stdin env out flat_map].
      now rewrite <- !app_assoc.
    + unfold blank_answers in *. cbn [flat_map].
      rewrite <- app_assoc. exact Hnet.
Qed.

End MoreOrchestrator.

(* ================================================================== *)
(** ** Where the script reads the console *)

Section Prompting.
Context {E : Type} (rt : Runtime E).

Lemma never_prompts_nothing {A} (m : M E A) :
  (forall w, snd (m w) = w) -> never_prompts m.
Proof. intros H w. exists []. now rewrite (H w), app_nil_r. Qed.

Lemma never_prompts_ret {A} (a : A) : never_prompts (E := E) (ret a).
Proof. now apply never_prompts_nothing. Qed.

Lemma never_prompts_raise {A} (e : exn) :
  never_prompts (E := E) (A := A) (raise e).
Proof. now apply never_prompts_nothing. Qed.

Lemma never_prompts_continue {A} : never_prompts (E := E) (A := A) continue_.
Proof. now apply never_prompts_nothing. Qed.

Lemma never_prompts_lift {A} (o : outcome A) : never_prompts (E := E) (lift o).
Proof. apply never_prompts_nothing. intros w. destruct o; reflexivity. Qed.

Lemma never_prompts_print (line : string) :
  never_prompts (E := E) (print line).
Proof. intros w. exists [Print line]. now split. Qed.

Lemma never_prompts_call {A} (ev : event) (f : E -> outcome A * E) :
  is_input ev = false -> never_prompts (call ev f).
Proof.
  intros Hev w. exists [ev]. unfold call.
  destruct (f (env w)) as [[a | e | b] e']; simpl; now rewrite Hev.
Qed.

Lemma existsb_is_input_app (a b : list event) :
  existsb is_input a = false -> existsb is_input b = false ->
  existsb is_input (a ++ b) = false.
Proof. intros Ha Hb. now rewrite existsb_app, Ha, Hb. Qed.

Lemma never_prompts_bind {A B} (m : M E A) (k : A -> M E B) :
  never_prompts m -> (forall a, never_prompts (k a)) ->
  never_prompts (bind m k).
Proof.
  intros Hm Hk w. unfold bind. destruct (Hm w) as (evs & Ho & Hn).
  destruct (m w) as [[a | | | e | b] w1]; simpl in *;
    try (exists evs; now split).
  destruct (Hk a w1) as (evs' & Ho' & Hn').
  exists (evs ++ evs'). rewrite Ho', Ho, app_assoc.
  split; [reflexivity | now apply existsb_is_input_app].
Qed.

Lemma never_prompts_try {A} (body : M E A)
      (handler : exn -> option (M E A)) :
  never_prompts body ->
  (forall e h, handler e = Some h -> never_prompts h) ->
  never_prompts (try_except body handler).
Proof.
  intros Hb Hh w. unfold try_except. destruct (Hb w) as (evs & Ho & Hn).
  destruct (body w) as [[a | | | e | b] w1]; simpl in *;
    try (exists evs; now split).
  destruct (handler e) as [h|] eqn:He; [|exists evs; now split].
  destruct (Hh e h He w1) as (evs' & Ho' & Hn').
  exists (evs ++ evs'). rewrite Ho', Ho, app_assoc.
  split; [reflexivity | now apply existsb_is_input_app].
Qed.

Lemma never_prompts_when (c : bool) (body : M E unit) :
  never_prompts body -> never_prompts (when_ c body).
Proof. intros Hb. destruct c; [exact Hb | apply never_prompts_ret]. Qed.

(** [quiet_with known] breaks a computation into its statements, going by
    the shape of the term; [known] closes the calls of functions already
    dealt with. *)
Ltac quiet_with known :=
  repeat
    lazymatch goal with
    | |- never_prompts (ret _) => apply never_prompts_ret
    | |- never_prompts (raise _) => apply never_prompts_raise
    | |- never_prompts continue_ => apply never_prompts_continue
    | |- never_prompts (print _) => apply never_prompts_print
    | |- never_prompts (lift _) => apply never_prompts_lift
    | |- never_prompts (call _ _) =>
        apply never_prompts_call; reflexivity
    | |- never_prompts (when_ _ _) => apply never_prompts_when
    | |- never_prompts (bind _ _) => apply never_prompts_bind; [|intro]
    | |- never_prompts (let (_, _) := ?p in _) => destruct p
    | |- never_prompts (if ?c then _ else _) => destruct c
    | |- never_prompts (let _ := _ in _) => cbv zeta
    | |- never_prompts _ => known
    end.

Lemma call_claude_sonnet_never_prompts (prompt : string) :
  never_prompts (call_claude_sonnet rt prompt).
Proof.
  unfold call_claude_sonnet.
  apply never_prompts_bind; [quiet_with fail | intro].
  apply never_prompts_try; [quiet_with fail|].
  intros e h H. inversion H. quiet_with fail.
Qed.

Lemma execute_curl_command_never_prompts (url : pyval) :
  never_prompts (execute_curl_command rt url).
Proof.
  unfold execute_curl_command. apply never_prompts_try; [quiet_with fail|].
  intros e h H.
  destruct (isinstance e [TimeoutExpired]); inversion H; quiet_with fail.
Qed.

Lemma generate_weather_api_calls_never_prompts (location : string) :
  never_prompts (generate_weather_api_calls rt location).
Proof.
  unfold generate_weather_api_calls.
  quiet_with ltac:(idtac; apply call_claude_sonnet_never_prompts).
Qed.

Lemma get_forecast_url_never_prompts (points_json : pyval) :
  never_prompts (get_forecast_url_from_points_response rt points_json).
Proof.
  unfold get_forecast_url_from_points_response.
  apply never_prompts_try; [quiet_with fail|].
  intros e h H.
  destruct (isinstance e [JSONDecodeError; KeyError]); inversion H;
    quiet_with fail.
Qed.

Lemma process_weather_response_never_prompts (raw_json : pyval)
      (location : string) :
  never_prompts (process_weather_response rt raw_json location).
Proof.
  unfold process_weather_response.
  quiet_with ltac:(idtac; apply call_claude_sonnet_never_prompts).
Qed.

Ltac quiet_step :=
  lazymatch goal with
  | |- never_prompts (generate_weather_api_calls _ _) =>
      apply generate_weather_api_calls_never_prompts
  | |- never_prompts (execute_curl_command _ _) =>
      apply execute_curl_command_never_prompts
  | |- never_prompts (get_forecast_url_from_points_response _ _) =>
      apply get_forecast_url_never_prompts
  | |- never_prompts (process_weather_response _ _ _) =>
      apply process_weather_response_never_prompts
  end.

Lemma weather_analysis_never_prompts (location : string) :
  never_prompts (weather_analysis rt location).
Proof. unfold weather_analysis. quiet_with ltac:(idtac; quiet_step). Qed.

(** X14.  The script calls [input()] once in a pass, as the first thing it
    does: what a pass adds to the events starts with the prompt, and
    whatever follows, through all five steps and however they end, holds no
    further call of [input()]. *)
Theorem pass_prompts_once (w : world E) :
  exists evs,
    out (snd (iteration rt w)) = out w ++ Input input_prompt :: evs
    /\ existsb is_input evs = false.
Proof.
  destruct (stdin w) as [|l rest] eqn:Hin.
  - rewrite (iteration_at_end_of_input rt w Hin). exists []. now split.
  - rewrite (iteration_on_line rt w l rest Hin). cbv zeta.
    destruct (is_quit_word (strip l)).
    + exists [Print farewell]. cbn [snd say emit prompted out].
      now rewrite <- app_assoc.
    + destruct (is_empty (strip l)).
      * exists [Print empty_input_error]. cbn [snd say emit prompted out].
        now rewrite <- app_assoc.
      * destruct (weather_analysis_never_prompts (strip l)
                    (prompted input_prompt rest w)) as (evs & Ho & Hn).
        exists evs. rewrite Ho. cbn [prompted out].
        now rewrite <- app_assoc.
Qed.

End Prompting.

(* ================================================================== *)
(** ** The further theorems at work on the scripted runtime *)

Import Situations.

Lemma call_claude_sonnet_contained_witness :
  boto3_client runtime "bedrock-runtime" "us-west-2" empty_content
  = (Returns tt, empty_content)
  /\ converse runtime (claude_request "Say hello.") empty_content
     = (empty_content_reply, used_up empty_content)
  /\ call_claude_sonnet runtime "Say hello." (start [] empty_content)
     = (Val (false, VStr "Error calling Claude: list index out of range"),
        called (Converse (claude_request "Say hello."))
          (used_up empty_content)
          (called client_event empty_content (start [] empty_content))).
Proof.
  split; [reflexivity | split; [reflexivity|]].
  exact (proj1 (call_claude_sonnet_contained runtime "Say hello."
                  (start [] empty_content) empty_content empty_content_reply
                  (used_up empty_content) eq_refl eq_refl)).
Defined.

(** An interrupt of the remote call is what leaves the client, and an
    interrupt of the curl run is what leaves the wrapper. *)
Example interrupts_pass_through :
  fst (call_claude_sonnet runtime "Say hello." (start [] model_interrupted))
  = RaiseBase KeyboardInterrupt
  /\ fst (execute_curl_command runtime (VStr seattle_url)
            (start [] curl_interrupted))
     = RaiseBase KeyboardInterrupt.
Proof. split; reflexivity. Qed.

Lemma undecodable_input_can_escape_witness :
  json_loads runtime_lenient "NaN" = Returns (VFloat "nan")
  /\ get_forecast_url_from_points_response runtime_lenient (VStr "NaN") idle
     = (Raise (MkExn TypeError "'float' object is not subscriptable"), idle)
  /\ json_loads runtime_lenient deep_brackets = Raises recursion_error
  /\ isinstance recursion_error [JSONDecodeError; KeyError] = false
  /\ get_forecast_url_from_points_response runtime_lenient
       (VStr deep_brackets) idle
     = (Raise recursion_error, idle).
Proof.
  split; [reflexivity | split].
  - exact (proj1 (undecodable_input_can_escape runtime_lenient "NaN" idle)
             "nan" eq_refl).
  - split; [vm_compute; reflexivity | split; [reflexivity|]].
    apply (proj2 (undecodable_input_can_escape runtime_lenient
                    deep_brackets idle) recursion_error);
      [vm_compute; reflexivity | reflexivity].
Defined.

Lemma missing_key_is_reported_witness :
  json_loads runtime "{}" = Returns (VDict [])
  /\ Py.lookup "properties" [] = None
  /\ get_forecast_url_from_points_response runtime (VStr "{}") idle
     = (Val (false, VStr "Error parsing Points API response: 'properties'"),
        idle).
Proof.
  split; [reflexivity | split; [reflexivity|]].
  exact (proj1 (missing_key_is_reported runtime "{}" [] idle eq_refl)
           eq_refl).
Defined.

(** The second half of the same lemma: [properties] is there, [forecast] is
    not. *)
Example missing_forecast_is_reported :
  get_forecast_url_from_points_response runtime (VStr no_forecast_doc) idle
  = (Val (false, VStr "Error parsing Points API response: 'forecast'"), idle).
Proof. reflexivity. Qed.

Lemma planner_raises_on_non_string_text_witness :
  call_claude_sonnet runtime (planner_prompt "Seattle") null_text_asked
  = (Val (true, VNone),
     snd (call_claude_sonnet runtime (planner_prompt "Seattle")
            null_text_asked))
  /\ (forall s, VNone <> VStr s)
  /\ exists e,
       exn_cls e = AttributeError
       /\ generate_weather_api_calls runtime "Seattle" (start [] null_text)
          = (Raise e,
             snd (call_claude_sonnet runtime (planner_prompt "Seattle")
                    null_text_asked)).
Proof.
  split; [reflexivity | split; [discriminate|]].
  apply (planner_raises_on_non_string_text runtime "Seattle" VNone
           (start [] null_text)); [reflexivity | discriminate].
Defined.

Lemma planner_url_is_trimmed_witness :
  generate_weather_api_calls runtime "Seattle" (start [] healthy)
  = (Val (true, VList [VStr seattle_url]),
     snd (generate_weather_api_calls runtime "Seattle" (start [] healthy)))
  /\ exists url,
       Py.getitem_0 (VList [VStr seattle_url]) = Returns (VStr url)
       /\ lstrip url = url /\ rstrip url = url
       /\ startswith url points_prefix = true.
Proof.
  split; [reflexivity|].
  apply (planner_url_is_trimmed runtime "Seattle" (VList [VStr seattle_url])
           (start [] healthy)
           (snd (generate_weather_api_calls runtime "Seattle"
                   (start [] healthy)))).
  reflexivity.
Defined.

Lemma planner_passes_model_failure_witness :
  call_claude_sonnet runtime (planner_prompt "Seattle") model_down_asked
  = (Val (false, VStr "Error calling Claude: Too many requests"),
     snd (call_claude_sonnet runtime (planner_prompt "Seattle")
            model_down_asked))
  /\ generate_weather_api_calls runtime "Seattle" (start [] model_down)
     = (Val (false, VStr "Error calling Claude: Too many requests"),
        snd (call_claude_sonnet runtime (planner_prompt "Seattle")
               model_down_asked)).
Proof.
  split; [reflexivity|].
  apply (planner_passes_model_failure runtime "Seattle"
           (VStr "Error calling Claude: Too many requests")
           (start [] model_down)).
  reflexivity.
Defined.

Lemma healthy_forecast_fetched :
  forecast_fetched runtime "Seattle" healthy_prompted (VStr "{}") 2
    healthy_forecast.
Proof.
  apply (ForecastFetched runtime "Seattle" healthy_prompted
           (VStr forecast_link) (VStr forecast_link) healthy_extracted
           (VStr "{}") 2 healthy_forecast).
  - apply (Extracted runtime "Seattle" healthy_prompted (VStr points_doc)
             healthy_points (VStr forecast_link) (VStr forecast_link)
             healthy_extracted).
    + apply (PointsFetched runtime "Seattle" healthy_prompted
               (VStr seattle_url) healthy_planned (VStr points_doc)
               healthy_points).
      * now apply (Planned runtime "Seattle" healthy_prompted
                     (VList [VStr seattle_url]) (VStr seattle_url)
                     healthy_planned).
      * reflexivity.
    + reflexivity.
    + reflexivity.
  - reflexivity.
  - reflexivity.
Defined.

Lemma successful_pass_displays_summary_witness :
  stdin healthy_start = "Seattle" :: ["quit"]
  /\ is_quit_word (strip "Seattle") = false
  /\ is_empty (strip "Seattle") = false
  /\ forecast_fetched runtime (strip "Seattle") healthy_prompted (VStr "{}")
       2 healthy_forecast
  /\ process_weather_response runtime (VStr "{}") (strip "Seattle")
       (at_summary 2 healthy_forecast)
     = (Val (true, VStr sunny), healthy_summarised)
  /\ iteration runtime healthy_start
     = (Val tt, displayed runtime (strip "Seattle") (VStr sunny)
                  healthy_summarised).
Proof.
  split; [reflexivity | split; [reflexivity | split; [reflexivity|]]].
  split; [exact healthy_forecast_fetched | split; [reflexivity|]].
  exact (proj1 (successful_pass_displays_summary runtime healthy_start
                  healthy_forecast healthy_summarised "Seattle" ["quit"]
                  (VStr "{}") (VStr sunny) 2 1
                  eq_refl eq_refl eq_refl healthy_forecast_fetched eq_refl)).
Defined.

Lemma null_forecast_points_fetched :
  points_fetched runtime_more "Seattle" null_forecast_prompted
    (VStr null_forecast_doc) null_forecast_fetched.
Proof.
  apply (PointsFetched runtime_more "Seattle" null_forecast_prompted
           (VStr seattle_url) null_forecast_planned (VStr null_forecast_doc)
           null_forecast_fetched).
  - now apply (Planned runtime_more "Seattle" null_forecast_prompted
                 (VList [VStr seattle_url]) (VStr seattle_url)
                 null_forecast_planned).
  - reflexivity.
Defined.

Lemma unshowable_forecast_url_ends_loop_witness :
  stdin null_forecast_start = "Seattle" :: ["quit"]
  /\ is_quit_word (strip "Seattle") = false
  /\ is_empty (strip "Seattle") = false
  /\ points_fetched runtime_more (strip "Seattle") null_forecast_prompted
       (VStr null_forecast_doc) null_forecast_fetched
  /\ get_forecast_url_from_points_response runtime_more
       (VStr null_forecast_doc) (at_extract null_forecast_fetched)
     = (Val (true, VNone), at_extract null_forecast_fetched)
  /\ Py.slice_to 60 VNone = Raises not_subscriptable_none
  /\ while_true 2 (iteration runtime_more) null_forecast_start
     = Some (Raise not_subscriptable_none, at_extract null_forecast_fetched).
Proof.
  split; [reflexivity | split; [reflexivity | split; [reflexivity|]]].
  split; [exact null_forecast_points_fetched|].
  split; [reflexivity | split; [reflexivity|]].
  exact (proj2 (unshowable_forecast_url_ends_loop runtime_more
                  null_forecast_start null_forecast_fetched
                  (at_extract null_forecast_fetched) "Seattle" ["quit"]
                  (VStr null_forecast_doc) VNone not_subscriptable_none 1
                  eq_refl eq_refl eq_refl null_forecast_points_fetched
                  eq_refl eq_refl)).
Defined.

Lemma end_of_input_ends_loop_witness :
  stdin idle = []
  /\ run_weather_agent runtime 1 idle
     = Some (Raise (MkExn EOFError "EOF when reading a line"), ended idle).
Proof.
  split; [reflexivity|].
  exact (end_of_input_ends_loop runtime idle 0 eq_refl).
Defined.

Lemma run_network_calls_bounded_witness :
  run_weather_agent runtime 2 healthy_start = Some (Val tt, healthy_finished)
  /\ exists evs,
       out healthy_finished = out healthy_start ++ evs
       /\ model_calls evs <= 2 * List.length (stdin healthy_start)
       /\ curl_runs evs <= 2 * List.length (stdin healthy_start).
Proof.
  assert (Hrun : run_weather_agent runtime 2 healthy_start
                 = Some (Val tt, healthy_finished))
    by (vm_compute; reflexivity).
  split; [exact Hrun|].
  exact (run_network_calls_bounded runtime 2 healthy_start healthy_finished
           (Val tt) Hrun).
Defined.

Lemma blank_lines_then_quit_witness :
  Forall (fun l => all_space l = true) [EmptyString; "   "]
  /\ is_quit_word (strip " Exit") = true
  /\ stdin (start [EmptyString; "   "; " Exit"; "Seattle"] healthy)
     = [EmptyString; "   "] ++ " Exit" :: ["Seattle"]
  /\ while_true 3 (iteration runtime)
       (start [EmptyString; "   "; " Exit"; "Seattle"] healthy)
     = Some (Val tt,
             {| stdin := ["Seattle"];
                env := healthy;
                out := [Input input_prompt; Print empty_input_error;
                        Input input_prompt; Print empty_input_error;
                        Input input_prompt; Print farewell] |}).
Proof.
  assert (Hblank : Forall (fun l => all_space l = true) [EmptyString; "   "])
    by (repeat constructor).
  split; [exact Hblank | split; [reflexivity | split; [reflexivity|]]].
  exact (proj1 (blank_lines_then_quit runtime [EmptyString; "   "] " Exit"
                  ["Seattle"] 0
                  (start [EmptyString; "   "; " Exit"; "Seattle"] healthy)
                  Hblank eq_refl eq_refl)).
Defined.
